(** * Fischer: the application intake routes and the ingestion pipeline

    A shallow embedding of the Next.js route handlers of the Fischer
    front end

      - [frontend/app/api/applications/route.ts]       (POST, GET)
      - [frontend/app/api/applications/[id]/route.ts]  (GET, PATCH)

    together with a model of the two background components (Status
    Aggregator, Document Extractor) that the repository only documents.
    (A later revision of [applications/route.ts] forwards both calls to
    the backend service, whose code is not among the sources; the handlers
    embedded here are the self-contained ones.)

    Further parts of the front end are embedded after these: the
    forwarding revision of the applications route and the enrich route,
    with the backend as an input ([BackendProxy]); the event handlers of
    the application form that posts to the submit route ([ApplyPage]);
    and the counters, lists and loader of the investor dashboard
    ([Dashboard]).

    Conventions of the embedding.

    - A JavaScript value that can come out of [JSON.parse] or be handed to
      [NextResponse.json] is a [JsVal]; an object is a finite map from
      property names to values ([gmap string JsVal]), so that the object
      spread [{...a, k: v}] is [<[k:=v]> a].
    - A number is an IEEE-754 binary64 value ([float]).  The integers that
      the handlers compute with (clock readings, [parseInt] results, array
      indices) are kept exact in [Z]; this coincides with the arithmetic on
      doubles while magnitudes stay below 2^53.
    - A string is a sequence of code units below 256.
    - The module-level array [applications] is the state threaded through
      every handler; a [throw] keeps the state reached so far, as the
      [try]/[catch] of the handlers does.
    - The clock ([Date.now()], [new Date()]) and [Math.random()] are inputs
      of the handlers. *)

From Stdlib Require Import ZArith Ascii PrimFloat SpecFloat FloatOps.
From stdpp Require Import gmap strings list fin_maps pretty.

(* ===================================================================== *)
(** * JavaScript values *)
(* ===================================================================== *)

#[warnings="-register-all"] Inductive JsVal : Type :=
| JUndefined
| JNull
| JBool (b : bool)
| JNum (x : float)
| JStr (s : string)
| JArr (xs : list JsVal)
| JObj (o : gmap string JsVal).

Abbreviation JsObj := (gmap string JsVal).

(** The module-level [applications] array. *)
Abbreviation Store := (list (gmap string JsVal)).

(** [ToBoolean]: what [!v] and [v || w] test. *)
Definition ToBoolean (v : JsVal) : bool :=
  match v with
  | JUndefined | JNull => false
  | JBool b => b
  | JNum x => negb (PrimFloat.is_zero x || PrimFloat.is_nan x)
  | JStr s => match s with EmptyString => false | String _ _ => true end
  | JArr _ | JObj _ => true
  end.

Definition is_nullish (v : JsVal) : bool :=
  match v with JUndefined | JNull => true | _ => false end.

(** The double nearest to an integer (ties to even), as a numeric literal
    or an integer-valued result is stored. *)
Definition number_of_Z (z : Z) : float :=
  SF2Prim (binary_normalize prec emax z 0 false).

(** [Math.floor] of a finite double, as an integer; [None] for NaN and the
    infinities. *)
Definition Math_floor (x : float) : option Z :=
  match Prim2SF x with
  | S754_zero _ => Some 0%Z
  | S754_finite s m e =>
      let v := if s then Z.neg m else Z.pos m in
      Some (if (0 <=? e)%Z then Z.shiftl v e else Z.shiftr v (- e))
  | S754_infinity _ | S754_nan => None
  end.

(** [arr[i]] for an array literal of strings and a computed index:
    [undefined] when the index is not an element index of the array. *)
Definition index_str (arr : list string) (i : option Z) : JsVal :=
  match i with
  | Some z =>
      if (z <? 0)%Z then JUndefined
      else match arr !! Z.to_nat z with
           | Some s => JStr s
           | None => JUndefined
           end
  | None => JUndefined
  end.

(* ===================================================================== *)
(** * Completions and the handler monad *)
(* ===================================================================== *)

Inductive Completion (A : Type) : Type :=
| Normal (a : A)
| Throw.
Arguments Normal {A} a.
Arguments Throw {A}.

(** A computation over the [applications] array that may throw.  The
    state reached before a throw is kept. *)
Definition Handler (A : Type) : Type := Store → Store * Completion A.

#[global] Instance Handler_ret : MRet Handler := λ A a st, (st, Normal a).

#[global] Instance Handler_bind : MBind Handler := λ A B k m st,
  match m st with
  | (st', Normal a) => k a st'
  | (st', Throw) => (st', Throw)
  end.

Definition throw {A} : Handler A := λ st, (st, Throw).

Definition lift {A} (c : Completion A) : Handler A := λ st, (st, c).

(** [applications.push(x)] *)
Definition push (x : JsObj) : Handler unit := λ st, (st ++ [x], Normal tt).

(** Reading the [applications] binding. *)
Definition read_applications : Handler Store := λ st, (st, Normal st).

(** ** Responses *)

Record Response : Type := mkResponse { status : nat; body : JsObj }.

(** [NextResponse.json(body, { status })]; the status defaults to 200. *)
Definition NextResponse_json (b : JsObj) (st : option nat) : Response :=
  mkResponse (default 200 st) b.

Definition internal_server_error : Response :=
  NextResponse_json {[ "error" := JStr "Internal server error" ]} (Some 500).

(** [try { ... } catch (error) { console.error(...); return 500 }] *)
Definition try_catch (m : Handler Response) (handler : Response)
  : Store → Store * Response :=
  λ st, match m st with
        | (st', Normal r) => (st', r)
        | (st', Throw) => (st', handler)
        end.

(* ===================================================================== *)
(** * Property reads and conversions that can throw *)
(* ===================================================================== *)

(** [v.k] for a property name [k] that is not a built-in property of
    strings, numbers, booleans and arrays (every name the handlers read is
    such a name): a [TypeError] on [undefined] and [null], the own
    property of an object, [undefined] otherwise. *)
Definition Get (v : JsVal) (k : string) : Completion JsVal :=
  match v with
  | JUndefined | JNull => Throw
  | JObj o => Normal (default JUndefined (o !! k))
  | _ => Normal JUndefined
  end.

(** Whether [ToString(v)] (as a template literal performs it) completes.
    A parsed JSON object has no callable own property: an own [toString]
    shadows [Object.prototype.toString] and the conversion throws.  An
    array joins the conversions of its elements, skipping [undefined] and
    [null]. *)
Fixpoint ToString_completes (v : JsVal) : bool :=
  match v with
  | JUndefined | JNull | JBool _ | JNum _ | JStr _ => true
  | JArr xs => forallb (λ x, is_nullish x || ToString_completes x) xs
  | JObj o => bool_decide (o !! "toString" = None)
  end.

(** Whether [v.toLocaleString()] completes.  On [undefined] and [null]
    the property read throws; an object calls its [toLocaleString], which
    by default calls its [toString]; an array calls [toLocaleString] on
    each element that is neither [undefined] nor [null]. *)
Fixpoint toLocaleString_completes (v : JsVal) : bool :=
  match v with
  | JUndefined | JNull => false
  | JBool _ | JNum _ | JStr _ => true
  | JArr xs => forallb (λ x, is_nullish x || toLocaleString_completes x) xs
  | JObj o =>
      bool_decide (o !! "toLocaleString" = None)
      && bool_decide (o !! "toString" = None)
  end.

Definition guard (b : bool) : Handler unit :=
  if b then mret tt else throw.

(* ===================================================================== *)
(** * The clock *)
(* ===================================================================== *)

(** [Date.now().toString()]: the decimal digits of the time value (an
    integer number of milliseconds, below 1e21). *)
Definition Date_now_toString (t : Z) : string := pretty t.

Fixpoint zeros (n : nat) : string :=
  match n with O => "" | S n' => "0" +:+ zeros n' end.

(** Decimal digits of a non-negative integer, left-padded with zeros. *)
Definition pad (width : nat) (n : Z) : string :=
  let s := pretty n in zeros (width - String.length s) +:+ s.

(** Year, month and day of a day number counted from 1970-01-01
    (proleptic Gregorian calendar). *)
Definition civil_from_days (days : Z) : Z * Z * Z :=
  let z := (days + 719468)%Z in
  let era := (z / 146097)%Z in
  let doe := (z - era * 146097)%Z in
  let yoe := ((doe - doe / 1460 + doe / 36524 - doe / 146096) / 365)%Z in
  let doy := (doe - (365 * yoe + yoe / 4 - yoe / 100))%Z in
  let mp := ((5 * doy + 2) / 153)%Z in
  let d := (doy - (153 * mp + 2) / 5 + 1)%Z in
  let m := (if (mp <? 10)%Z then mp + 3 else mp - 9)%Z in
  let y := (yoe + era * 400 + (if (m <=? 2)%Z then 1 else 0))%Z in
  (y, m, d).

(** [new Date(t).toISOString()] for a time value [t] in milliseconds. *)
Definition toISOString (t : Z) : string :=
  let days := (t / 86400000)%Z in
  let ms := (t mod 86400000)%Z in
  let '(y, m, d) := civil_from_days days in
  let year :=
    if ((0 <=? y) && (y <=? 9999))%Z then pad 4 y
    else (if (y <? 0)%Z then "-" else "+") +:+ pad 6 (Z.abs y) in
  year +:+ "-" +:+ pad 2 m +:+ "-" +:+ pad 2 d +:+ "T"
    +:+ pad 2 (ms / 3600000) +:+ ":" +:+ pad 2 (ms / 60000 mod 60) +:+ ":"
    +:+ pad 2 (ms / 1000 mod 60) +:+ "." +:+ pad 3 (ms mod 1000) +:+ "Z".

(* ===================================================================== *)
(** * [app/api/applications/route.ts] *)
(* ===================================================================== *)

Module ApplicationsRoute.

(** [{ ...data }]: the own enumerable properties of [data].  An array
    spreads its elements under their indices, a string its code units;
    the other primitives have none. *)
Definition spread (data : JsVal) : JsObj :=
  match data with
  | JObj o => o
  | JArr xs => list_to_map (imap (λ i x, (pretty i, x)) xs)
  | JStr s =>
      list_to_map
        (imap (λ i c, (pretty i, JStr (String c EmptyString)))
              (String.list_ascii_of_string s))
  | JUndefined | JNull | JBool _ | JNum _ => ∅
  end.

(** [!data.company_name || !data.primary_business_model ||
     !data.current_stage], read left to right with short circuit. *)
Definition missing_required_fields (data : JsVal) : Handler bool :=
  company_name ← lift (Get data "company_name");
  if negb (ToBoolean company_name) then mret true else
  primary_business_model ← lift (Get data "primary_business_model");
  if negb (ToBoolean primary_business_model) then mret true else
  current_stage ← lift (Get data "current_stage");
  mret (negb (ToBoolean current_stage)).

(** The record built for a submission: [{ ...data, id, submitted_at }]. *)
Definition newApplication (data : JsVal) (now created : Z) : JsObj :=
  <[ "submitted_at" := JStr (toISOString created) ]>
    (<[ "id" := JStr (Date_now_toString now) ]> (spread data)).

(** The arguments of the [console.log("New application received:", ...)]
    call.  What is printed does not reach the response; the evaluation of
    the [funding] template can throw. *)
Definition log_new_application (data : JsVal) : Handler unit :=
  _ ← lift (Get data "company_name");
  _ ← lift (Get data "current_stage");
  funding_currency ← lift (Get data "funding_currency");
  guard (ToString_completes funding_currency);;
  funding_amount_seeking ← lift (Get data "funding_amount_seeking");
  guard (toLocaleString_completes funding_amount_seeking).

(** [export async function POST(request)].

    [request_json] is the completion of [await request.json()] ([Throw]
    when the body is not JSON); [now] is the reading of [Date.now()] and
    [created] the time value of [new Date()]. *)
Definition POST (request_json : Completion JsVal) (now created : Z)
  : Store → Store * Response :=
  try_catch
    (data ← lift request_json;
     missing ← missing_required_fields data;
     if (missing : bool) then
       mret (M := Handler)
         (NextResponse_json
            {[ "error" := JStr "Missing required fields" ]} (Some 400))
     else
       let newApplication := newApplication data now created in
       push newApplication;;
       log_new_application data;;
       mret (M := Handler)
         (NextResponse_json
            (<[ "success" := JBool true ]>
             (<[ "id" := default JUndefined (newApplication !! "id") ]>
              {[ "message" := JStr "Application submitted successfully" ]}))
            (Some 201)))
    internal_server_error.

(** ** Query parameters *)

(** [a || b] on a value of [URLSearchParams.get] ([null] when the
    parameter is absent): the empty string is falsy as well. *)
Definition or_else (a : option string) (b : string) : string :=
  match a with
  | Some (String _ _ as s) => s
  | Some EmptyString | None => b
  end.

(** White space that [parseInt] skips, among code units below 256. *)
Definition is_white_space (c : ascii) : bool :=
  let n := N_of_ascii c in
  ((9 <=? n) && (n <=? 13) || (n =? 32) || (n =? 160))%N.

Fixpoint trim_start (s : string) : string :=
  match s with
  | String c s' => if is_white_space c then trim_start s' else s
  | EmptyString => EmptyString
  end.

(** The value of a digit in radix up to 36. *)
Definition digit_value (c : ascii) : option Z :=
  let n := Z.of_N (N_of_ascii c) in
  if ((48 <=? n) && (n <=? 57))%Z then Some (n - 48)%Z
  else if ((97 <=? n) && (n <=? 122))%Z then Some (n - 87)%Z
  else if ((65 <=? n) && (n <=? 90))%Z then Some (n - 55)%Z
  else None.

(** The longest prefix of radix-[R] digits, as an integer; [acc] is the
    value read so far ([None] while no digit has been read). *)
Fixpoint parse_digits (R : Z) (s : string) (acc : option Z) : option Z :=
  match s with
  | EmptyString => acc
  | String c s' =>
      match digit_value c with
      | Some d =>
          if (d <? R)%Z then parse_digits R s' (Some (default 0 acc * R + d)%Z)
          else acc
      | None => acc
      end
  end.

(** [Number.parseInt(string)] with no radix; [None] is NaN.  The result
    is the integer the digits denote: it is the number the code computes
    when its absolute value is below 2^53 (beyond that the code holds the
    nearest double). *)
Definition parseInt (string : string) : option Z :=
  let inputString := trim_start string in
  let '(sign, digits) :=
    match inputString with
    | String "-"%char rest => ((-1)%Z, rest)
    | String "+"%char rest => (1%Z, rest)
    | _ => (1%Z, inputString)
    end in
  let '(R, digits) :=
    match digits with
    | String "0"%char (String "x"%char rest)
    | String "0"%char (String "X"%char rest) => (16%Z, rest)
    | _ => (10%Z, digits)
    end in
  mathInt ← parse_digits R digits None; Some (sign * mathInt)%Z.

(** [a + b] on numbers that are integers or NaN. *)
Definition add (a b : option Z) : option Z :=
  x ← a; y ← b; Some (x + y)%Z.

(** The number held by a computed integer or NaN. *)
Definition number (n : option Z) : JsVal :=
  JNum (match n with Some z => number_of_Z z | None => nan end).

(** ** [Array.prototype.slice] *)

(** NaN converts to 0. *)
Definition ToIntegerOrInfinity (n : option Z) : Z := default 0%Z n.

(** A negative index counts from the end; the result is clamped to
    [0 .. len]. *)
Definition relative_index (len rel : Z) : Z :=
  if (rel <? 0)%Z then Z.max (len + rel) 0 else Z.min rel len.

Definition slice {A} (l : list A) (start end_ : option Z) : list A :=
  let len := Z.of_nat (length l) in
  let k := relative_index len (ToIntegerOrInfinity start) in
  let final := relative_index len (ToIntegerOrInfinity end_) in
  take (Z.to_nat (final - k)) (drop (Z.to_nat k) l).

(** ** The listing *)

(** The object built by the [map] callback for one application:
    [{ ...app, ai_score, risk_level, status, key_insights, red_flags }].
    The four arguments are the results of the four [Math.random()] calls,
    in evaluation order. *)
Definition enhance (r_score r_risk r_status r_flags : float) (app : JsObj)
  : JsObj :=
  <[ "red_flags" :=
       if (0.5 <? r_flags)%float then JArr []
       else JArr [ JStr "High customer acquisition costs";
                   JStr "Competitive market landscape" ] ]>
  (<[ "key_insights" :=
        JArr [ JStr "Strong product-market fit indicators";
               JStr "Experienced founding team";
               JStr "Healthy unit economics" ] ]>
  (<[ "status" :=
        index_str ["PENDING"; "REVIEWED"; "APPROVED"; "REJECTED"]
                  (Math_floor (r_status * 4)%float) ]>
  (<[ "risk_level" :=
        index_str ["LOW"; "MEDIUM"; "HIGH"] (Math_floor (r_risk * 3)%float) ]>
  (<[ "ai_score" := JNum (r_score * 3 + 7)%float ]> app)))).

(** [applications.slice(offset, offset + limit).map(...)]; [random k] is
    the result of the [k]-th call of [Math.random()] in the request. *)
Definition enhancedApplications (random : nat → float)
    (applications : Store) (limit offset : option Z) : list JsObj :=
  imap (λ i app,
          enhance (random (4 * i)) (random (4 * i + 1))
                  (random (4 * i + 2)) (random (4 * i + 3)) app)
       (slice applications offset (add offset limit)).

(** [export async function GET(request)].

    [limit_param] and [offset_param] are
    [url.searchParams.get("limit")] and [url.searchParams.get("offset")]. *)
Definition GET (limit_param offset_param : option string)
    (random : nat → float) : Store → Store * Response :=
  try_catch
    (let limit := parseInt (or_else limit_param "10") in
     let offset := parseInt (or_else offset_param "0") in
     applications ← read_applications;
     let enhancedApplications :=
       enhancedApplications random applications limit offset in
     mret (M := Handler)
       (NextResponse_json
          (<[ "applications" := JArr (JObj <$> enhancedApplications) ]>
           (<[ "total" := JNum (number_of_Z (Z.of_nat (length applications))) ]>
            (<[ "limit" := number limit ]>
             {[ "offset" := number offset ]})))
          None))
    internal_server_error.

End ApplicationsRoute.

(* ===================================================================== *)
(** * [app/api/applications/[id]/route.ts] *)
(* ===================================================================== *)

Module ApplicationByIdRoute.

Definition document (filename type : string) : JsVal :=
  JObj (<[ "filename" := JStr filename ]> {[ "type" := JStr type ]}).

(** The object literal [mockApplication]; [created] is the time value of
    [new Date()].  Characters outside ASCII are held as their UTF-8
    bytes. *)
#[warnings="-inexact-float"] Definition mockApplication (id : string) (created : Z) : JsObj :=
  list_to_map
    [ ("id", JStr id);
      ("company_name", JStr "TechFlow AI Solutions");
      ("primary_business_model", JStr "SaaS/Software");
      ("current_stage", JStr "Early Revenue (<₹1Cr ARR)");
      ("funding_amount_seeking", JNum 25000000);
      ("funding_currency", JStr "INR");
      ("monthly_revenue_gmv", JNum 850000);
      ("monthly_burn_rate", JNum 450000);
      ("team_size", JNum 18);
      ("timeline_for_closing", JStr "3-6 months");
      ("submitted_at", JStr (toISOString created));
      ("ai_score", JNum 8.2);
      ("risk_level", JStr "LOW");
      ("status", JStr "PENDING");
      ("key_insights",
        JArr [ JStr "Strong product-market fit indicators";
               JStr "Experienced founding team with domain expertise";
               JStr "Healthy unit economics with 75% gross margin";
               JStr "Growing market with clear differentiation" ]);
      ("red_flags", JArr []);
      ("detailed_analysis",
        JObj (list_to_map
          [ ("market_size",
              JStr "Large addressable market with growth potential");
            ("competition",
              JStr "Moderate competition with clear differentiation");
            ("team_assessment",
              JStr "Strong technical and business expertise");
            ("financial_health",
              JStr "Positive unit economics with sustainable growth");
            ("risk_factors", JStr "Low overall risk profile") ]));
      ("documents",
        JArr [ document "pitch_deck.pdf" "application/pdf";
               document "financial_model.xlsx"
                 "application/vnd.openxmlformats-officedocument.spreadsheetml.sheet";
               document "business_plan.docx"
                 "application/vnd.openxmlformats-officedocument.wordprocessingml.document" ]) ].

(** [export async function GET(request, { params })]; [id] is
    [params.id]. *)
Definition GET (id : string) (created : Z) : Store → Store * Response :=
  try_catch
    (let mockApplication := mockApplication id created in
     mret (M := Handler) (NextResponse_json mockApplication None))
    internal_server_error.

(** [export async function PATCH(request, { params })];
    [request_json] is the completion of [await request.json()].  The
    updates only reach the console. *)
Definition PATCH (id : string) (request_json : Completion JsVal)
  : Store → Store * Response :=
  try_catch
    (updates ← lift request_json;
     mret (M := Handler)
       (NextResponse_json
          (<[ "success" := JBool true ]>
           {[ "message" := JStr "Application updated successfully" ]})
          None))
    internal_server_error.

End ApplicationByIdRoute.

(* ===================================================================== *)
(** * The background pipeline *)
(* ===================================================================== *)

(** The repository documents the background processing of an application
    (backend README, "Document Processing Flow" and "Firestore Document
    Structure") and ships none of its code.  The components below follow
    the design sections 3, 4.3 and 4.4. *)

Module ExtractionStatus.

Inductive t : Set := PENDING | PROCESSING | SUCCESS | FAILED.

#[global] Instance extraction_status_eq_dec : EqDecision t.
Proof. solve_decision. Defined.

(** SUCCESS and FAILED are terminal. *)
Definition is_terminal (s : t) : bool :=
  match s with
  | SUCCESS | FAILED => true
  | PENDING | PROCESSING => false
  end.

End ExtractionStatus.

Module ProcessingStatus.

Inductive t : Set := PENDING | PROCESSING | COMPLETED | FAILED.

#[global] Instance processing_status_eq_dec : EqDecision t.
Proof. solve_decision. Defined.

End ProcessingStatus.

(** Modelled from the spec: the Document of section 3; the repository has
    no declaration of it.  The binary content is a string of bytes with
    its declared media type. *)
Record Document : Type := mkDocument {
  field : string;
  content : string * string;
  extraction_status : ExtractionStatus.t;
  extracted_content : option string;
  extraction_error : option string;
  attempt_count : nat
}.

(** Modelled from the spec: the Application of section 3; the repository
    has no declaration of it.  Timestamps are time values in
    milliseconds. *)
Record Application : Type := mkApplication {
  id : string;
  submitted_at : Z;
  documents : list Document;
  processing_status : ProcessingStatus.t;
  processing_started_at : option Z;
  processing_completed_at : option Z
}.

(** Modelled from the spec: a document as Submission Intake attaches it
    (section 3, Lifecycle): extraction_status PENDING, nothing extracted,
    no attempt made. *)
Definition new_document (field : string) (content : string * string)
  : Document :=
  mkDocument field content ExtractionStatus.PENDING None None 0.

Module StatusAggregator.

(** Modelled from the spec: the terminal report a Document Extractor
    hands to the aggregator (section 4.3, last sentence); the repository
    has no code for it. *)
Inductive TerminalResult : Type :=
| Extracted (text : string)
| Failed (reason : string).

(** Modelled from the spec: step (a) of section 4.4, writing one
    document's terminal status, content and error. *)
Definition write_result (r : TerminalResult) (d : Document) : Document :=
  match r with
  | Extracted text =>
      mkDocument (field d) (content d) ExtractionStatus.SUCCESS
                 (Some text) None (attempt_count d)
  | Failed reason =>
      mkDocument (field d) (content d) ExtractionStatus.FAILED
                 None (Some reason) (attempt_count d)
  end.

(** Modelled from the spec: step (b) of section 4.4, the missing
    aggregation function.  It scans the documents' current
    extraction_status values: any PENDING or PROCESSING gives PROCESSING,
    otherwise (all terminal) COMPLETED. *)
Definition recompute_status (docs : list Document) : ProcessingStatus.t :=
  if existsb (λ d, negb (ExtractionStatus.is_terminal (extraction_status d)))
             docs
  then ProcessingStatus.PROCESSING
  else ProcessingStatus.COMPLETED.

(** Modelled from the spec: one pass of the aggregator on a terminal
    report for the document at [index] (section 4.4): write the result,
    recompute the status, and set processing_completed_at the first time
    COMPLETED is reached. *)
Definition report (now : Z) (index : nat) (r : TerminalResult)
    (app : Application) : Application :=
  let docs := alter (write_result r) index (documents app) in
  let st := recompute_status docs in
  mkApplication (id app) (submitted_at app) docs st
    (processing_started_at app)
    (match st, processing_completed_at app with
     | ProcessingStatus.COMPLETED, None => Some now
     | _, completed => completed
     end).

End StatusAggregator.

Module DocumentExtractor.

(** Modelled from the spec: the result of one call of the Extraction
    Capability (section 6). *)
Inductive Outcome : Type :=
| Success (text : string)
| RetryableFailure (reason : string)
| PermanentFailure (reason : string).

(** Modelled from the spec: "default 3" of section 4.3. *)
Definition default_max_attempts : nat := 3.

(** Modelled from the spec: "base delay × 2^attempt, capped". *)
Definition backoff_delay (base cap : Z) (attempt : nat) : Z :=
  Z.min cap (base * 2 ^ Z.of_nat attempt).

(** What the extractor does, in order. *)
Inductive Event : Type :=
| Invoked (attempt : nat)
| Slept (delay : Z).

Definition is_invocation (e : Event) : bool :=
  match e with Invoked _ => true | Slept _ => false end.

(** Modelled from the spec: one attempt of the Document Extractor
    (section 4.3), missing from the repository.  attempt_count is
    incremented before the invocation; [extract n] is the outcome of the
    invocation made as attempt [n].  A retryable failure leaves the
    document in PROCESSING while attempt_count < max_attempts and
    converts to FAILED with the last error otherwise. *)
Definition attempt (extract : nat → Outcome) (max_attempts : nat)
    (d : Document) : Document :=
  let n := S (attempt_count d) in
  match extract n with
  | Success text =>
      mkDocument (field d) (content d) ExtractionStatus.SUCCESS
                 (Some text) None n
  | RetryableFailure reason =>
      if n <? max_attempts
      then mkDocument (field d) (content d) ExtractionStatus.PROCESSING
                      None None n
      else mkDocument (field d) (content d) ExtractionStatus.FAILED
                      None (Some reason) n
  | PermanentFailure reason =>
      mkDocument (field d) (content d) ExtractionStatus.FAILED
                 None (Some reason) n
  end.

(** Modelled from the spec: the retry loop of section 4.3.  It stops on a
    terminal status and otherwise makes the next attempt, sleeping the
    backoff delay between two attempts.  [fuel] bounds the number of
    attempts; [None] when it runs out. *)
Fixpoint run (fuel : nat) (extract : nat → Outcome) (max_attempts : nat)
    (base cap : Z) (d : Document) : option (Document * list Event) :=
  if ExtractionStatus.is_terminal (extraction_status d) then Some (d, [])
  else
    match fuel with
    | O => None
    | S fuel' =>
        let d' := attempt extract max_attempts d in
        let pause :=
          if ExtractionStatus.is_terminal (extraction_status d') then []
          else [Slept (backoff_delay base cap (attempt_count d'))] in
        '(final, events) ← run fuel' extract max_attempts base cap d';
        Some (final, Invoked (attempt_count d') :: pause ++ events)
    end.

End DocumentExtractor.

(* ===================================================================== *)
(** * Vocabulary of the statements *)
(* ===================================================================== *)

(** The value of the property [k] of a submitted object. *)
Definition prop (o : JsObj) (k : string) : JsVal :=
  default JUndefined (o !! k).

(** The three fields the submit handler requires. *)
Definition required_fields : list string :=
  ["company_name"; "primary_business_model"; "current_stage"].

(** A field is missing from the payload (absent, or [null]), or is the
    empty string. *)
Definition missing_or_empty (o : JsObj) (k : string) : Prop :=
  o !! k = None ∨ o !! k = Some JNull ∨ o !! k = Some (JStr "").

(** The payload has the three required fields, each with a truthy value
    (for the declared type of the fields: a non-empty string). *)
Definition valid_submission (o : JsObj) : bool :=
  forallb (λ k, ToBoolean (prop o k)) required_fields.

(** The two values interpolated into the log line can be rendered.  For
    a payload of the declared type ([funding_currency] a string,
    [funding_amount_seeking] a number) this holds. *)
Definition loggable (o : JsObj) : bool :=
  ToString_completes (prop o "funding_currency")
  && toLocaleString_completes (prop o "funding_amount_seeking").

(** The response to a payload that fails the validation. *)
Definition validation_error : Response :=
  mkResponse 400 {[ "error" := JStr "Missing required fields" ]}.

(** The response to an accepted submission. *)
Definition created_response (now : Z) : Response :=
  mkResponse 201
    (<[ "success" := JBool true ]>
     (<[ "id" := JStr (Date_now_toString now) ]>
      {[ "message" := JStr "Application submitted successfully" ]})).

(** The success response the interface description promises:
    [{ id, accepted: true, processing_status: "PENDING" }]. *)
Definition accepted_response (r : Response) (new_id : string) : Prop :=
  body r !! "id" = Some (JStr new_id)
  ∧ body r !! "accepted" = Some (JBool true)
  ∧ body r !! "processing_status" = Some (JStr "PENDING").

(** The failure the interface description promises for an unknown id. *)
Definition NotFound (r : Response) : Prop := status r = 404.

(** The application [app] carries the identifier [id]. *)
Definition has_id (id : string) (app : JsObj) : Prop :=
  app !! "id" = Some (JStr id).

(** The value reported under [total] for a store of [n] applications. *)
Definition total_of (n : nat) : JsVal := JNum (number_of_Z (Z.of_nat n)).

(** The keys the listing adds to each application. *)
Definition enhancement_keys : list string :=
  ["ai_score"; "risk_level"; "status"; "key_insights"; "red_flags"].

(** A minimal well-formed payload, used in the examples. *)
Definition sample_payload (documents : list JsVal) : JsObj :=
  list_to_map
    [ ("company_name", JStr "Test Inc");
      ("primary_business_model", JStr "SaaS");
      ("current_stage", JStr "MVP");
      ("funding_amount_seeking", JNum 25000000);
      ("funding_currency", JStr "INR");
      ("documents", JArr documents) ].

(* ===================================================================== *)
(** * JSON on the wire *)
(* ===================================================================== *)

(** What [JSON.parse(JSON.stringify(v))] gives for a value [v] that sits
    in an array or under a property: [None] when the value is left out
    ([undefined] under a property).  A number that is not finite is
    written [null], and negative zero is written [0]; in an array
    [undefined] is written [null]. *)
Fixpoint JSON_value (v : JsVal) : option JsVal :=
  match v with
  | JUndefined => None
  | JNull => Some JNull
  | JBool b => Some (JBool b)
  | JNum x =>
      Some (if PrimFloat.is_finite x
            then JNum (if PrimFloat.is_zero x then 0%float else x)
            else JNull)
  | JStr s => Some (JStr s)
  | JArr xs => Some (JArr (map (λ x, default JNull (JSON_value x)) xs))
  | JObj o => Some (JObj (omap JSON_value o))
  end.

(** The body a handler reads with [await request.json()] when the client
    sent [JSON.stringify(v)]; [JSON.stringify(undefined)] is not JSON. *)
Definition sent_as_json (v : JsVal) : Completion JsVal :=
  match JSON_value v with
  | Some w => Normal w
  | None => Throw
  end.

(** [response.ok] *)
Definition ok_status (status : nat) : bool :=
  (200 <=? status) && (status <=? 299).

(* ===================================================================== *)
(** * The routes that forward to the backend service *)
(* ===================================================================== *)

(** The later revision of [app/api/applications/route.ts] and the enrich
    route call the backend with [fetch].  The backend is an input of the
    handlers: a function from the request to the completion of the call.
    The state threaded through a handler is the list of the calls made so
    far. *)

Module BackendProxy.

(** The body of a call: none, or form data, a list of named entries (a
    text, or the bytes of a file) that the handler passes on as it
    received it. *)
Inductive RequestBody : Type :=
| NoBody
| FormDataBody (entries : list (string * string)).

Record BackendRequest : Type := mkBackendRequest {
  url : string;
  method : string;
  sent : RequestBody
}.

(** What the handlers read of a [fetch] response: its status and the
    completion of [response.json()]. *)
Record BackendResponse : Type := mkBackendResponse {
  backend_status : nat;
  backend_json : Completion JsVal
}.

(** [Throw]: the promise of [fetch] is rejected. *)
Definition Backend : Type := BackendRequest → Completion BackendResponse.

Definition Proxy (A : Type) : Type :=
  list BackendRequest → list BackendRequest * Completion A.

#[global] Instance Proxy_ret : MRet Proxy := λ A a calls, (calls, Normal a).

#[global] Instance Proxy_bind : MBind Proxy := λ A B k m calls,
  match m calls with
  | (calls', Normal a) => k a calls'
  | (calls', Throw) => (calls', Throw)
  end.

Definition await {A} (c : Completion A) : Proxy A := λ calls, (calls, c).

(** [await fetch(url, { method, body })] *)
Definition fetch (backend : Backend) (request : BackendRequest)
  : Proxy BackendResponse :=
  λ calls, (calls ++ [request], backend request).

(** A response built by [NextResponse.json]; its body is any value. *)
Record JsonResponse : Type := mkJsonResponse {
  res_status : nat;
  res_body : JsVal
}.

(** [NextResponse.json(body, { status })] with a computed status.  The
    construction of the response throws a [RangeError] for a status
    outside 200..599 and a [TypeError] for a status that admits no body
    (204, 205, 304); a body that is [undefined] cannot be serialized. *)
Definition NextResponse_json_with (b : JsVal) (st : option nat)
  : Completion JsonResponse :=
  let s := default 200 st in
  if (s <? 200) || (599 <? s) then Throw
  else if (s =? 204) || (s =? 205) || (s =? 304) then Throw
  else match b with
       | JUndefined => Throw
       | _ => Normal (mkJsonResponse s b)
       end.

(** [{ error: message }] *)
Definition error_body (message : JsVal) : JsVal :=
  JObj {[ "error" := message ]}.

(** [try { ... } catch (error) { return NextResponse.json({ error },
    { status: 500 }) }] *)
Definition try_catch (m : Proxy JsonResponse) (message : string)
  : list BackendRequest → list BackendRequest * JsonResponse :=
  λ calls, match m calls with
           | (calls', Normal r) => (calls', r)
           | (calls', Throw) =>
               (calls', mkJsonResponse 500 (error_body (JStr message)))
           end.

(** [process.env.NEXT_PUBLIC_BACKEND_URL || "http://localhost:8000"] *)
Definition BACKEND_URL (env : option string) : string :=
  ApplicationsRoute.or_else env "http://localhost:8000".

(** [errorData.error || fallback] *)
Definition error_or (errorData : JsVal) (fallback : string)
  : Completion JsVal :=
  match Get errorData "error" with
  | Normal e => Normal (if ToBoolean e then e else JStr fallback)
  | Throw => Throw
  end.

(** The text of an integer or NaN in a template literal (the digits are
    exact for integers below 2^53). *)
Definition Number_toString (n : option Z) : string :=
  match n with
  | Some z => pretty z
  | None => "NaN"
  end.

Module Applications.

(** [export async function POST(request)]; [request_formData] is the
    completion of [await request.formData()]. *)
Definition POST (env : option string) (backend : Backend)
    (request_formData : Completion (list (string * string)))
  : list BackendRequest → list BackendRequest * JsonResponse :=
  try_catch
    (formData ← await request_formData;
     response ← fetch backend
       (mkBackendRequest (BACKEND_URL env +:+ "/applications") "POST"
                         (FormDataBody formData));
     if negb (ok_status (backend_status response)) then
       errorData ← await (backend_json response);
       error ← await (error_or errorData "Backend error");
       await (NextResponse_json_with (error_body error)
                (Some (backend_status response)))
     else
       result ← await (backend_json response);
       await (NextResponse_json_with result (Some 201)))
    "Internal server error".

(** [export async function GET(request)]; [limit_param] and
    [offset_param] are the values of [url.searchParams.get]. *)
Definition GET (env : option string) (backend : Backend)
    (limit_param offset_param : option string)
  : list BackendRequest → list BackendRequest * JsonResponse :=
  try_catch
    (let limit :=
       ApplicationsRoute.parseInt
         (ApplicationsRoute.or_else limit_param "10") in
     let offset :=
       ApplicationsRoute.parseInt
         (ApplicationsRoute.or_else offset_param "0") in
     response ← fetch backend
       (mkBackendRequest
          (BACKEND_URL env +:+ "/applications?limit="
             +:+ Number_toString limit
             +:+ "&offset=" +:+ Number_toString offset)
          "GET" NoBody);
     if negb (ok_status (backend_status response)) then
       errorData ← await (backend_json response);
       error ← await (error_or errorData "Backend error");
       await (NextResponse_json_with (error_body error)
                (Some (backend_status response)))
     else
       result ← await (backend_json response);
       await (NextResponse_json_with result None))
    "Internal server error".

End Applications.

Module Enrich.

(** [response.json().catch(() => ({}))] *)
Definition json_or_empty (c : Completion JsVal) : JsVal :=
  match c with
  | Normal v => v
  | Throw => JObj ∅
  end.

(** [export async function POST(_request, { params })] of the enrich
    route; [id] is [params.id]. *)
Definition POST (env : option string) (backend : Backend) (id : string)
  : list BackendRequest → list BackendRequest * JsonResponse :=
  try_catch
    (if negb (ToBoolean (JStr id)) then
       await (NextResponse_json_with
                (error_body (JStr "Application ID is required")) (Some 400))
     else
       response ← fetch backend
         (mkBackendRequest
            (BACKEND_URL env +:+ "/applications/" +:+ id +:+ "/enrich")
            "POST" NoBody);
       if negb (ok_status (backend_status response)) then
         let errorData := json_or_empty (backend_json response) in
         error ← await (error_or errorData "Enrichment failed");
         await (NextResponse_json_with (error_body error)
                  (Some (backend_status response)))
       else
         result ← await (backend_json response);
         await (NextResponse_json_with result None))
    "Enrichment failed".

End Enrich.

End BackendProxy.

(* ===================================================================== *)
(** * The application form: [ApplicationForm] *)
(* ===================================================================== *)

(** The state and the event handlers of the form that posts to
    [/api/applications].  The React state is passed in and the new state
    returned. *)

Module ApplyPage.

(** A [File]: the page reads its [name] and [type] only. *)
Record File : Type := mkFile { file_name : string; file_type : string }.

Record CoFounder : Type := mkCoFounder {
  cf_id : string;
  cf_name : string;
  cf_linkedin : string
}.

(** [keyof CoFounder] *)
Inductive CoFounderKey : Set := key_id | key_name | key_linkedin.

Record FormData : Type := mkFormData {
  company_name : string;
  company_website : string;
  primary_business_model : string;
  business_model_other : string;
  current_stage : string;
  funding_amount_seeking : float;
  funding_currency : string;
  primary_use_of_funds : list string;
  use_of_funds_other : string;
  timeline_for_closing : string;
  monthly_revenue_gmv : float;
  monthly_burn_rate : float;
  team_size : float;
  key_revenue_driver : string;
  revenue_driver_other : string;
  founder_linkedin_urls : list string;
  documents : list File
}.

(** [{ ...prev, primary_use_of_funds: l }] *)
Definition with_primary_use_of_funds (l : list string) (prev : FormData)
  : FormData :=
  mkFormData (company_name prev) (company_website prev)
    (primary_business_model prev) (business_model_other prev)
    (current_stage prev) (funding_amount_seeking prev)
    (funding_currency prev) l (use_of_funds_other prev)
    (timeline_for_closing prev) (monthly_revenue_gmv prev)
    (monthly_burn_rate prev) (team_size prev) (key_revenue_driver prev)
    (revenue_driver_other prev) (founder_linkedin_urls prev)
    (documents prev).

(** [{ ...prev, documents: l }] *)
Definition with_documents (l : list File) (prev : FormData) : FormData :=
  mkFormData (company_name prev) (company_website prev)
    (primary_business_model prev) (business_model_other prev)
    (current_stage prev) (funding_amount_seeking prev)
    (funding_currency prev) (primary_use_of_funds prev)
    (use_of_funds_other prev) (timeline_for_closing prev)
    (monthly_revenue_gmv prev) (monthly_burn_rate prev) (team_size prev)
    (key_revenue_driver prev) (revenue_driver_other prev)
    (founder_linkedin_urls prev) l.

(** The initial state of the form. *)
Definition initial_formData : FormData :=
  mkFormData "" "" "" "" "" 0 "INR" [] "" "" 0 0 0 "" "" [""] [].

Definition STEPS : list (Z * string * string) :=
  [ (1%Z, "Company Basics", "Tell us about your company");
    (2%Z, "Fundraising Context", "Your funding requirements");
    (3%Z, "Key Metrics", "Current business metrics");
    (4%Z, "Founder Information", "About the founding team");
    (5%Z, "Documents", "Upload supporting materials") ].

(** [nextStep] and [prevStep], on the value of [currentStep]. *)
Definition nextStep (currentStep : Z) : Z :=
  if (currentStep <? Z.of_nat (length STEPS))%Z then (currentStep + 1)%Z
  else currentStep.

Definition prevStep (currentStep : Z) : Z :=
  if (1 <? currentStep)%Z then (currentStep - 1)%Z else currentStep.

(** [STEPS[currentStep - 1]], read by the page at every render. *)
Definition current_step_entry (currentStep : Z)
  : option (Z * string * string) :=
  if (currentStep - 1 <? 0)%Z then None
  else STEPS !! Z.to_nat (currentStep - 1).

(** [addCoFounder]; [now] is the reading of [Date.now()]. *)
Definition addCoFounder (now : Z) (coFounders : list CoFounder)
  : list CoFounder :=
  coFounders ++ [mkCoFounder (Date_now_toString now) "" ""].

(** [removeCoFounder(id)] *)
Definition removeCoFounder (id : string) (coFounders : list CoFounder)
  : list CoFounder :=
  List.filter (λ cf, negb (bool_decide (cf_id cf = id))) coFounders.

(** [{ ...cf, [field]: value }] *)
Definition set_key (field : CoFounderKey) (value : string) (cf : CoFounder)
  : CoFounder :=
  match field with
  | key_id => mkCoFounder value (cf_name cf) (cf_linkedin cf)
  | key_name => mkCoFounder (cf_id cf) value (cf_linkedin cf)
  | key_linkedin => mkCoFounder (cf_id cf) (cf_name cf) value
  end.

(** [updateCoFounder(id, field, value)] *)
Definition updateCoFounder (id : string) (field : CoFounderKey)
    (value : string) (coFounders : list CoFounder) : list CoFounder :=
  map (λ cf, if bool_decide (cf_id cf = id) then set_key field value cf
             else cf)
      coFounders.

(** [handleUseOfFundsChange(value, checked)] *)
Definition handleUseOfFundsChange (value : string) (checked : bool)
    (prev : FormData) : FormData :=
  if checked then
    with_primary_use_of_funds (primary_use_of_funds prev ++ [value]) prev
  else
    with_primary_use_of_funds
      (List.filter (λ item, negb (bool_decide (item = value)))
                   (primary_use_of_funds prev))
      prev.

(** [handleFileUpload]; [files] is [e.target.files] ([None] for
    [null]). *)
Definition handleFileUpload (files : option (list File)) (prev : FormData)
  : FormData :=
  match files with
  | Some fs => with_documents (documents prev ++ fs) prev
  | None => prev
  end.

(** [l.filter((x, i) => p(x, i))], the callback reading the index;
    [i] is the index of the head of [l]. *)
Fixpoint filter_indexed {A} (p : A → nat → bool) (i : nat) (l : list A)
  : list A :=
  match l with
  | [] => []
  | x :: l' =>
      if p x i then x :: filter_indexed p (S i) l'
      else filter_indexed p (S i) l'
  end.

(** [removeFile(index)] *)
Definition removeFile (index : nat) (prev : FormData) : FormData :=
  with_documents
    (filter_indexed (λ _ i, negb (i =? index)) 0 (documents prev)) prev.

(** [String.prototype.trim], on code units below 256. *)
Definition trim (s : string) : string :=
  String.rev
    (ApplicationsRoute.trim_start
       (String.rev (ApplicationsRoute.trim_start s))).

(** The callback [(url) => url.trim()] as a filter reads it. *)
Definition not_blank (url : string) : bool := ToBoolean (JStr (trim url)).

(** [{ filename: file.name, content: "", content_type: file.type }] *)
Definition document_entry (file : File) : JsVal :=
  JObj (list_to_map [ ("filename", JStr (file_name file));
                      ("content", JStr "");
                      ("content_type", JStr (file_type file)) ]).

(** The object [payload] of [handleSubmit]:
    [{ ...formData, founder_linkedin_urls: [...], documents: [...] }].
    The two properties the literal sets replace those of the spread. *)
Definition payload (formData : FormData) (coFounders : list CoFounder)
  : JsObj :=
  <[ "documents" := JArr (document_entry <$> documents formData) ]>
  (<[ "founder_linkedin_urls" :=
        JArr (JStr <$>
                (List.filter not_blank (founder_linkedin_urls formData)
                 ++ List.filter not_blank (cf_linkedin <$> coFounders))) ]>
   (list_to_map
      [ ("company_name", JStr (company_name formData));
        ("company_website", JStr (company_website formData));
        ("primary_business_model", JStr (primary_business_model formData));
        ("business_model_other", JStr (business_model_other formData));
        ("current_stage", JStr (current_stage formData));
        ("funding_amount_seeking", JNum (funding_amount_seeking formData));
        ("funding_currency", JStr (funding_currency formData));
        ("primary_use_of_funds",
          JArr (JStr <$> primary_use_of_funds formData));
        ("use_of_funds_other", JStr (use_of_funds_other formData));
        ("timeline_for_closing", JStr (timeline_for_closing formData));
        ("monthly_revenue_gmv", JNum (monthly_revenue_gmv formData));
        ("monthly_burn_rate", JNum (monthly_burn_rate formData));
        ("team_size", JNum (team_size formData));
        ("key_revenue_driver", JStr (key_revenue_driver formData));
        ("revenue_driver_other", JStr (revenue_driver_other formData)) ])).

(** The three messages [handleSubmit] can show. *)
Definition alert_success : string := "Application submitted successfully!".
Definition alert_failed : string :=
  "Failed to submit application. Please try again.".
Definition alert_error : string := "An error occurred. Please try again.".

(** [handleSubmit]: posts [JSON.stringify(payload)] and shows an alert
    chosen by [response.ok]; a rejected [fetch] shows the third message.
    [fetch] stands for the call to [/api/applications]. *)
Definition handleSubmit
    (fetch : Completion JsVal → Store → Store * Completion Response)
    (formData : FormData) (coFounders : list CoFounder)
  : Store → Store * string :=
  λ st,
    match fetch (sent_as_json (JObj (payload formData coFounders))) st with
    | (st', Normal response) =>
        (st', if ok_status (status response) then alert_success
              else alert_failed)
    | (st', Throw) => (st', alert_error)
    end.

(** The call as the submit route of [applications/route.ts] serves it. *)
Definition served_by_route (now created : Z)
  : Completion JsVal → Store → Store * Completion Response :=
  λ request_json st,
    let '(st', response) :=
      ApplicationsRoute.POST request_json now created st in
    (st', Normal response).

End ApplyPage.

(* ===================================================================== *)
(** * The investor dashboard: [InvestorDashboard] *)
(* ===================================================================== *)

Module Dashboard.

(** [v === s] for a string [s]. *)
Definition strict_equals_string (v : JsVal) (s : string) : bool :=
  match v with
  | JStr t => bool_decide (t = s)
  | _ => false
  end.

(** [a === b].  Two arrays or two objects are equal when they are the
    same object; the values of the embedding carry no identity, and the
    comparison is applied to identifiers, which are strings. *)
Definition strict_equals (a b : JsVal) : bool :=
  match a, b with
  | JUndefined, JUndefined | JNull, JNull => true
  | JBool x, JBool y => bool_decide (x = y)
  | JNum x, JNum y => PrimFloat.eqb x y
  | JStr s, _ => strict_equals_string b s
  | _, _ => false
  end.

(** [app.status === s] on an entry of [applications]: the entries are
    objects, as the interface [Application] declares. *)
Definition status_is (s : string) (app : JsObj) : bool :=
  strict_equals_string (prop app "status") s.

(** The counters of the object [stats]. *)
Definition stats_total (applications : list JsObj) : nat :=
  length applications.

Definition stats_pending (applications : list JsObj) : nat :=
  length (List.filter (status_is "PENDING") applications).

Definition stats_reviewed (applications : list JsObj) : nat :=
  length (List.filter (status_is "REVIEWED") applications).

Definition stats_approved (applications : list JsObj) : nat :=
  length (List.filter (status_is "APPROVED") applications).

Definition pendingApplications (applications : list JsObj) : list JsObj :=
  List.filter (status_is "PENDING") applications.

Definition reviewedApplications (applications : list JsObj) : list JsObj :=
  List.filter (λ app, negb (status_is "PENDING" app)) applications.

(** [updateApplicationStatus(status)] of the first revision of the page,
    on the pair of states [applications] and [selectedApplication]. *)
Definition updateApplicationStatus (status : string)
    (applications : list JsObj) (selectedApplication : option JsObj)
  : list JsObj * option JsObj :=
  match selectedApplication with
  | None => (applications, selectedApplication)
  | Some selected =>
      (map (λ app, if strict_equals (prop app "id") (prop selected "id")
                   then <[ "status" := JStr status ]> app
                   else app)
           applications,
       Some (<[ "status" := JStr status ]> selected))
  end.

(** What [fetchApplications] does with the response of
    [fetch("/api/applications")]: the value it passes to
    [setApplications], or the message it passes to [setError]. *)
Definition fetchApplications (response : Completion Response)
  : JsVal + string :=
  match response with
  | Normal r =>
      if ok_status (status r) then
        match sent_as_json (JObj (body r)) with
        | Normal data =>
            match Get data "applications" with
            | Normal applications =>
                inl (if ToBoolean applications then applications
                     else JArr [])
            | Throw => inr "Error loading applications"
            end
        | Throw => inr "Error loading applications"
        end
      else inr "Failed to load applications"
  | Throw => inr "Error loading applications"
  end.

(** The state [applications] seen as the declared [Application[]]:
    an array of objects. *)
Definition as_applications (v : JsVal) : option (list JsObj) :=
  match v with
  | JArr xs =>
      mapM (λ x, match x with JObj o => Some o | _ => None end) xs
  | _ => None
  end.

End Dashboard.

(* ===================================================================== *)
(** * Vocabulary of the further statements *)
(* ===================================================================== *)

(** A status that is not a success status and with which a response with
    a body can be built. *)
Definition forwardable (s : nat) : Prop := 300 ≤ s ≤ 599 ∧ s ≠ 304.

(** A press of one of the two navigation buttons of the form. *)
Inductive Press : Set := press_next | press_previous.

(** The value of [currentStep] after a sequence of presses, from the
    initial value 1. *)
Definition after_presses (presses : list Press) : Z :=
  foldl (λ currentStep p,
           match p with
           | press_next => ApplyPage.nextStep currentStep
           | press_previous => ApplyPage.prevStep currentStep
           end)
        1%Z presses.

(** The three required fields of the form are filled in. *)
Definition form_complete (formData : ApplyPage.FormData) : bool :=
  negb (bool_decide (ApplyPage.company_name formData = ""))
  && negb (bool_decide (ApplyPage.primary_business_model formData = ""))
  && negb (bool_decide (ApplyPage.current_stage formData = "")).

(** The record the submit route stores for a submission of the form. *)
Definition form_record (formData : ApplyPage.FormData)
    (coFounders : list ApplyPage.CoFounder) (now created : Z) : JsObj :=
  ApplicationsRoute.newApplication
    (JObj (omap JSON_value (ApplyPage.payload formData coFounders)))
    now created.

(* ===================================================================== *)
(** * The clock *)
(* ===================================================================== *)

Example toISOString_epoch : toISOString 0 = "1970-01-01T00:00:00.000Z".
Proof. vm_compute. reflexivity. Qed.

Example toISOString_leap_day :
  toISOString 951782400000 = "2000-02-29T00:00:00.000Z".
Proof. vm_compute. reflexivity. Qed.

Example toISOString_before_epoch :
  toISOString (-1) = "1969-12-31T23:59:59.999Z".
Proof. vm_compute. reflexivity. Qed.

Lemma Date_now_toString_inj t1 t2 :
  Date_now_toString t1 = Date_now_toString t2 → t1 = t2.
Proof. unfold Date_now_toString. apply (inj pretty). Qed.

(* ===================================================================== *)
(** * The primitives on concrete inputs *)
(* ===================================================================== *)

Example parseInt_examples :
  ApplicationsRoute.parseInt <$>
    ["10"; "007"; " 42"; "-5x"; "12.5"; "0x1f"; "abc"; ""; "0x"; "+"]
  = [Some 10; Some 7; Some 42; Some (-5); Some 12; Some 31;
     None; None; None; None]%Z.
Proof. vm_compute. reflexivity. Qed.

Example slice_examples :
  ApplicationsRoute.slice [1; 2; 3; 4; 5] (Some 1%Z) (Some 3%Z) = [2; 3]
  ∧ ApplicationsRoute.slice [1; 2; 3; 4; 5] (Some (-2)%Z) (Some 100%Z) = [4; 5]
  ∧ ApplicationsRoute.slice [1; 2; 3; 4; 5] (Some 3%Z) None = []
  ∧ ApplicationsRoute.slice [1; 2; 3; 4; 5] None (Some (-1)%Z) = [1; 2; 3; 4].
Proof. vm_compute. by split_and!. Qed.

Example Math_floor_examples :
  Math_floor (0.75 * 4)%float = Some 3%Z
  ∧ Math_floor (0.5 * 3)%float = Some 1%Z
  ∧ Math_floor (-0.5)%float = Some (-1)%Z
  ∧ Math_floor nan = None.
Proof. vm_compute. by split_and!. Qed.

Example enhance_example :
  ApplicationsRoute.enhance 0.5 0.5 0.75 0.25 ∅ !! "ai_score"
    = Some (JNum 8.5)
  ∧ ApplicationsRoute.enhance 0.5 0.5 0.75 0.25 ∅ !! "risk_level"
    = Some (JStr "MEDIUM")
  ∧ ApplicationsRoute.enhance 0.5 0.5 0.75 0.25 ∅ !! "status"
    = Some (JStr "REJECTED").
Proof. vm_compute. by split_and!. Qed.

(** A body that is JSON [null] is answered 500: the first property read
    throws.  A payload without [funding_amount_seeking] passes the
    validation and is stored, and the log line then throws: the answer is
    500 although the record has been appended. *)
Example POST_null_body :
  ApplicationsRoute.POST (Normal JNull) 5 6 [] = ([], internal_server_error).
Proof. reflexivity. Qed.

Example POST_without_funding_amount :
  let o : JsObj :=
    list_to_map [ ("company_name", JStr "Test Inc");
                  ("primary_business_model", JStr "SaaS");
                  ("current_stage", JStr "MVP") ] in
  ApplicationsRoute.POST (Normal (JObj o)) 5 6 []
  = ([ApplicationsRoute.newApplication (JObj o) 5 6], internal_server_error).
Proof. vm_compute. reflexivity. Qed.

(* ===================================================================== *)
(** * Unfolding the handlers *)
(* ===================================================================== *)

(** Unfolds the monadic plumbing of a handler body. *)
Ltac unfold_handler :=
  unfold mbind, mret, Handler_bind, Handler_ret, lift, push, guard, throw, Get.

Section Handlers.

Import ApplicationsRoute.

Lemma newApplication_id data now created :
  newApplication data now created !! "id" = Some (JStr (Date_now_toString now)).
Proof.
  unfold newApplication.
  rewrite lookup_insert_ne by done. by rewrite lookup_insert_eq.
Qed.

Lemma newApplication_submitted_at data now created :
  newApplication data now created !! "submitted_at"
  = Some (JStr (toISOString created)).
Proof. unfold newApplication. by rewrite lookup_insert_eq. Qed.

(** The fields of the payload other than the two the handler sets are
    stored as submitted. *)
Lemma newApplication_other (o : JsObj) now created k :
  k ≠ "id" → k ≠ "submitted_at" →
  newApplication (JObj o) now created !! k = o !! k.
Proof.
  intros Hid Hsub. unfold newApplication, spread.
  by rewrite !lookup_insert_ne.
Qed.

(** What the submit handler does on an object payload, by cases. *)
Lemma POST_object (o : JsObj) now created (st : Store) :
  POST (Normal (JObj o)) now created st =
    if negb (valid_submission o) then (st, validation_error)
    else if loggable o
         then (st ++ [newApplication (JObj o) now created],
               created_response now)
         else (st ++ [newApplication (JObj o) now created],
               internal_server_error).
Proof.
  unfold POST, try_catch, missing_required_fields, log_new_application,
    valid_submission, loggable, required_fields, prop.
  unfold_handler. cbn beta iota delta [forallb].
  rewrite newApplication_id.
  destruct (ToBoolean (default JUndefined (o !! "company_name"))); cbn; [|done].
  destruct (ToBoolean (default JUndefined (o !! "primary_business_model")));
    cbn; [|done].
  destruct (ToBoolean (default JUndefined (o !! "current_stage")));
    cbn; [|done].
  destruct (ToString_completes (default JUndefined (o !! "funding_currency")));
    cbn; [|done].
  by destruct (toLocaleString_completes
                 (default JUndefined (o !! "funding_amount_seeking"))).
Qed.

(** A payload that is not an object, or a body that is not JSON, is
    never stored. *)
Lemma POST_not_object request_json now created (st : Store) :
  (∀ o, request_json ≠ Normal (JObj o)) →
  ∃ r, POST request_json now created st = (st, r) ∧ status r ≠ 201.
Proof.
  intros Hno.
  destruct request_json as [[| |b|x|s|xs|o]|];
    try (by eexists; split; [reflexivity|]).
  by destruct (Hno o).
Qed.

(** A 201 response is only given to a valid object payload, after its
    record has been appended. *)
Lemma POST_created request_json now created (st st' : Store) r :
  POST request_json now created st = (st', r) → status r = 201 →
  ∃ o, request_json = Normal (JObj o) ∧ valid_submission o = true
       ∧ st' = st ++ [newApplication (JObj o) now created]
       ∧ r = created_response now.
Proof.
  intros HP Hr.
  destruct request_json as [[| |b|x|s|xs|o]|];
    try (apply (f_equal snd) in HP; cbn in HP; subst r; by cbn in Hr).
  exists o. rewrite POST_object in HP.
  destruct (valid_submission o); cbn in HP; [|by simplify_eq].
  destruct (loggable o); by simplify_eq.
Qed.

Lemma sample_payload_valid documents :
  valid_submission (sample_payload documents) = true.
Proof. vm_compute. reflexivity. Qed.

Lemma sample_payload_loggable documents :
  loggable (sample_payload documents) = true.
Proof. vm_compute. reflexivity. Qed.

Lemma POST_sample_payload documents now created (st : Store) :
  POST (Normal (JObj (sample_payload documents))) now created st
  = (st ++ [newApplication (JObj (sample_payload documents)) now created],
     created_response now).
Proof.
  by rewrite POST_object, sample_payload_valid, sample_payload_loggable.
Qed.

(** The submit handler only ever appends: the records already stored
    stay in place, whatever the request. *)
Lemma POST_appends request_json now created (st : Store) :
  ∃ suffix, (POST request_json now created st).1 = st ++ suffix.
Proof.
  destruct request_json as [[| |b|x|s|xs|o]|];
    try (by exists []; rewrite app_nil_r).
  rewrite POST_object.
  destruct (valid_submission o); cbn [negb]; [|by exists []; rewrite app_nil_r].
  destruct (loggable o); by eexists.
Qed.

(** The listing, unfolded. *)
Lemma GET_unfold limit_param offset_param random (st : Store) :
  GET limit_param offset_param random st =
    (st,
     mkResponse 200
       (<[ "applications" :=
             JArr (JObj <$> enhancedApplications random st
                      (parseInt (or_else limit_param "10"))
                      (parseInt (or_else offset_param "0"))) ]>
        (<[ "total" := total_of (length st) ]>
         (<[ "limit" := number (parseInt (or_else limit_param "10")) ]>
          {[ "offset" := number (parseInt (or_else offset_param "0")) ]})))).
Proof. reflexivity. Qed.

Lemma GET_total limit_param offset_param random (st : Store) :
  body (GET limit_param offset_param random st).2 !! "total"
  = Some (total_of (length st)).
Proof.
  rewrite GET_unfold. cbn [snd body].
  rewrite lookup_insert_ne by done. by rewrite lookup_insert_eq.
Qed.

End Handlers.

(* ===================================================================== *)
(** * Submit *)
(* ===================================================================== *)

Section Submit.

Import ApplicationsRoute.

Lemma missing_or_empty_falsy (o : JsObj) k :
  missing_or_empty o k → ToBoolean (prop o k) = false.
Proof. unfold prop. by intros [-> | [-> | ->]]. Qed.

Lemma missing_required_invalid (o : JsObj) :
  (∃ k, k ∈ required_fields ∧ missing_or_empty o k) →
  valid_submission o = false.
Proof.
  intros (k & Hk & Hmiss). apply missing_or_empty_falsy in Hmiss.
  unfold valid_submission. apply not_true_is_false. intros Hall.
  rewrite forallb_forall in Hall.
  apply list_elem_of_In, Hall in Hk. congruence.
Qed.

(** C1.  A submission in which one of the three required fields
    (company name, primary business model, current stage) is missing or
    empty is answered with the validation error (status 400, "Missing
    required fields"), and the store is left as it was: no record is
    added. *)
Theorem submit_missing_field_rejected (o : JsObj) (now created : Z)
    (st : Store) :
  (∃ k, k ∈ required_fields ∧ missing_or_empty o k) →
  POST (Normal (JObj o)) now created st = (st, validation_error).
Proof.
  intros Hmiss. rewrite POST_object.
  by rewrite (missing_required_invalid o Hmiss).
Qed.

Lemma submit_missing_field_rejected_witness :
  (∃ k, k ∈ required_fields
        ∧ missing_or_empty {[ "company_name" := JStr "Test Inc" ]} k)
  ∧ POST (Normal (JObj {[ "company_name" := JStr "Test Inc" ]})) 5 6 [∅]
    = ([∅], validation_error).
Proof.
  assert (H : ∃ k, k ∈ required_fields
        ∧ missing_or_empty {[ "company_name" := JStr "Test Inc" ]} k).
  { exists "current_stage". split.
    - unfold required_fields. do 2 right. left.
    - left. reflexivity. }
  split; [exact H|].
  exact (submit_missing_field_rejected _ 5 6 [∅] H).
Defined.

(** C4, as stated, fails: the response to a valid submission has no
    [accepted] and no [processing_status] field. *)
Lemma submit_response_not_accepted_shape :
  ¬ accepted_response
      (POST (Normal (JObj (sample_payload [])))
            1759406400123 1759406400124 []).2
      (Date_now_toString 1759406400123).
Proof.
  rewrite POST_sample_payload.
  intros (_ & Hacc & _). cbn in Hacc.
  by rewrite !lookup_insert_ne, lookup_singleton_ne in Hacc.
Qed.

(** C4, amended.  For every valid submission whose log line can be
    rendered (any payload of the declared type), the response has status
    201 and its body is exactly [{ success: true, id, message:
    "Application submitted successfully" }], where [id] is the identifier
    of the record just stored; it has no [accepted] and no
    [processing_status] field. *)
Theorem submit_valid_response (o : JsObj) (now created : Z) (st : Store) :
  valid_submission o = true → loggable o = true →
  let '(st', r) := POST (Normal (JObj o)) now created st in
  r = created_response now
  ∧ status r = 201
  ∧ body r !! "success" = Some (JBool true)
  ∧ body r !! "message" = Some (JStr "Application submitted successfully")
  ∧ (∃ app, last st' = Some app ∧ body r !! "id" = app !! "id")
  ∧ body r !! "accepted" = None
  ∧ body r !! "processing_status" = None.
Proof.
  intros Hvalid Hlog. rewrite POST_object, Hvalid, Hlog. cbn [negb].
  split_and!; try done.
  exists (newApplication (JObj o) now created). split.
  - by rewrite last_snoc.
  - rewrite newApplication_id. cbn.
    rewrite lookup_insert_ne by done. by rewrite lookup_insert_eq.
Qed.

Lemma submit_valid_response_witness :
  valid_submission (sample_payload []) = true
  ∧ loggable (sample_payload []) = true
  ∧ (POST (Normal (JObj (sample_payload [])))
          1759406400123 1759406400124 []).2
    = created_response 1759406400123.
Proof.
  assert (Hv : valid_submission (sample_payload []) = true)
    by (vm_compute; reflexivity).
  assert (Hl : loggable (sample_payload []) = true)
    by (vm_compute; reflexivity).
  split; [exact Hv|]. split; [exact Hl|].
  pose proof (submit_valid_response (sample_payload [])
                1759406400123 1759406400124 [] Hv Hl) as H.
  destruct (POST _ _ _ _) as [st' r]. exact (proj1 H).
Defined.

(** C6.  For every valid submission the record, carrying its assigned
    [id] and its [submitted_at], is appended to the store by the time the
    handler returns: the store after the call is the store before
    followed by the new record, a success response names that record, and
    the [total] reported by any later listing is one more than before. *)
Theorem submit_valid_persisted (o : JsObj) (now created : Z) (st : Store) :
  valid_submission o = true →
  let '(st', r) := POST (Normal (JObj o)) now created st in
  ∃ app,
    st' = st ++ [app]
    ∧ app !! "id" = Some (JStr (Date_now_toString now))
    ∧ app !! "submitted_at" = Some (JStr (toISOString created))
    ∧ (∀ k, k ≠ "id" → k ≠ "submitted_at" → app !! k = o !! k)
    ∧ (status r = 201 → body r !! "id" = app !! "id")
    ∧ ∀ limit_param offset_param random,
        body (GET limit_param offset_param random st).2 !! "total"
        = Some (total_of (length st))
        ∧ body (GET limit_param offset_param random st').2 !! "total"
          = Some (total_of (length st + 1)).
Proof.
  intros Hvalid. rewrite POST_object, Hvalid. cbn [negb].
  assert (Hgen : ∀ r,
    (status r = 201 → r = created_response now) →
    ∃ app,
      st ++ [newApplication (JObj o) now created] = st ++ [app]
      ∧ app !! "id" = Some (JStr (Date_now_toString now))
      ∧ app !! "submitted_at" = Some (JStr (toISOString created))
      ∧ (∀ k, k ≠ "id" → k ≠ "submitted_at" → app !! k = o !! k)
      ∧ (status r = 201 → body r !! "id" = app !! "id")
      ∧ ∀ limit_param offset_param random,
          body (GET limit_param offset_param random st).2 !! "total"
          = Some (total_of (length st))
          ∧ body (GET limit_param offset_param random
                    (st ++ [newApplication (JObj o) now created])).2 !! "total"
            = Some (total_of (length st + 1))).
  { intros r Hr. exists (newApplication (JObj o) now created).
    split_and!.
    - done.
    - apply newApplication_id.
    - apply newApplication_submitted_at.
    - intros k. apply newApplication_other.
    - intros ->%Hr. rewrite newApplication_id. cbn.
      rewrite lookup_insert_ne by done. by rewrite lookup_insert_eq.
    - intros lp op random. rewrite !GET_total. split; [done|].
      by rewrite length_app. }
  destruct (loggable o); apply Hgen; [done|].
  intros Hst. by cbn in Hst.
Qed.

Lemma submit_valid_persisted_witness :
  valid_submission (sample_payload []) = true
  ∧ ∃ app,
      (POST (Normal (JObj (sample_payload [])))
            1759406400123 1759406400124 []).1 = [app]
      ∧ app !! "id" = Some (JStr "1759406400123").
Proof.
  assert (Hv : valid_submission (sample_payload []) = true)
    by (vm_compute; reflexivity).
  split; [exact Hv|].
  pose proof (submit_valid_persisted (sample_payload [])
                1759406400123 1759406400124 [] Hv) as H.
  destruct (POST _ _ _ _) as [st' r].
  destruct H as (app & Hst & Hid & _).
  exists app. split; [exact Hst | exact Hid].
Defined.

(** C7 does not hold of the handler.  The identifier is the clock value
    read at creation, so two submissions handled within the same
    millisecond are both answered 201 with the same identifier, and the
    store then holds two different records under that identifier. *)
Theorem submit_same_millisecond_same_id :
  let '(st1, r1) :=
    POST (Normal (JObj (sample_payload [])))
         1759406400123 1759406400123 [] in
  let '(st2, r2) :=
    POST (Normal (JObj (sample_payload [JStr "deck.pdf"])))
         1759406400123 1759406400124 st1 in
  status r1 = 201 ∧ status r2 = 201
  ∧ body r1 !! "id" = Some (JStr "1759406400123")
  ∧ body r2 !! "id" = Some (JStr "1759406400123")
  ∧ ∃ app1 app2,
      st2 = [app1; app2]
      ∧ app1 !! "documents" ≠ app2 !! "documents"
      ∧ app1 !! "id" = Some (JStr "1759406400123")
      ∧ app2 !! "id" = Some (JStr "1759406400123").
Proof.
  rewrite !POST_sample_payload.
  split_and!; [done | done | done | done |].
  eexists _, _. split; [reflexivity|].
  rewrite !newApplication_id, !newApplication_other by done.
  split_and!; [|done|done].
  intros Heq. vm_compute in Heq. discriminate Heq.
Qed.

(** The identifier of a record is the decimal rendering of the clock
    value read when the record is created: two successful submissions
    that read different clock values (made on any two states of the
    store) are given different identifiers, in the responses and in the
    records appended to the store. *)
Theorem submit_distinct_clock_distinct_id
    (request1 request2 : Completion JsVal) (now1 created1 now2 created2 : Z)
    (st st' : Store) :
  now1 ≠ now2 →
  let '(st1, r1) := POST request1 now1 created1 st in
  let '(st2, r2) := POST request2 now2 created2 st' in
  status r1 = 201 → status r2 = 201 →
  body r1 !! "id" ≠ body r2 !! "id"
  ∧ ∃ app1 app2,
      st1 = st ++ [app1] ∧ st2 = st' ++ [app2]
      ∧ app1 !! "id" = Some (JStr (Date_now_toString now1))
      ∧ app2 !! "id" = Some (JStr (Date_now_toString now2))
      ∧ app1 !! "id" ≠ app2 !! "id".
Proof.
  intros Hne.
  destruct (POST request1 now1 created1 st) as [st1 r1] eqn:H1.
  destruct (POST request2 now2 created2 st') as [st2 r2] eqn:H2.
  intros Hr1 Hr2.
  destruct (POST_created _ _ _ _ _ _ H1 Hr1) as (o1 & -> & _ & -> & ->).
  destruct (POST_created _ _ _ _ _ _ H2 Hr2) as (o2 & -> & _ & -> & ->).
  assert (Hids : Some (JStr (Date_now_toString now1))
                 ≠ Some (JStr (Date_now_toString now2))).
  { intros [= Heq]. by apply Hne, Date_now_toString_inj. }
  split.
  - cbn. rewrite !(lookup_insert_ne _ "success" "id") by done.
    by rewrite !lookup_insert_eq.
  - exists (newApplication (JObj o1) now1 created1),
           (newApplication (JObj o2) now2 created2).
    rewrite !newApplication_id. by split_and!.
Qed.

Lemma submit_distinct_clock_distinct_id_witness :
  (5 ≠ 6)%Z
  ∧ body (POST (Normal (JObj (sample_payload []))) 5 5 []).2 !! "id"
    ≠ body (POST (Normal (JObj (sample_payload []))) 6 6
              (POST (Normal (JObj (sample_payload []))) 5 5 []).1).2 !! "id".
Proof.
  assert (Hne : (5 ≠ 6)%Z) by lia.
  split; [exact Hne|].
  pose proof (submit_distinct_clock_distinct_id
                (Normal (JObj (sample_payload [])))
                (Normal (JObj (sample_payload []))) 5 5 6 6 []
                (POST (Normal (JObj (sample_payload []))) 5 5 []).1 Hne) as H.
  rewrite !POST_sample_payload in H |- *. cbn [fst snd] in H |- *.
  by apply H.
Defined.

End Submit.

(* ===================================================================== *)
(** * Listing *)
(* ===================================================================== *)

Section Listing.

Import ApplicationsRoute.

(** ** [parseInt] on the decimal rendering of a natural number *)

Lemma digit_value_pretty_N_char (d : N) :
  (d < 10)%N → digit_value (pretty_N_char d) = Some (Z.of_N d).
Proof.
  intros Hd.
  assert (d = 0 ∨ d = 1 ∨ d = 2 ∨ d = 3 ∨ d = 4 ∨ d = 5 ∨ d = 6 ∨ d = 7
          ∨ d = 8 ∨ d = 9)%N as Hcases by lia.
  repeat destruct Hcases as [-> | Hcases]; try reflexivity.
  by subst d.
Qed.

(** Reading back the digits written in front of [s]. *)
Lemma parse_digits_pretty_N_go (x : N) (s : string) :
  parse_digits 10 (pretty_N_go x s) None
  = parse_digits 10 s (if decide (x = 0%N) then None else Some (Z.of_N x)).
Proof.
  revert s. induction (N.lt_wf_0 x) as [x _ IH]. intros s.
  destruct (decide (x = 0%N)) as [-> | Hx]; [done|].
  rewrite pretty_N_go_step by lia.
  rewrite IH by (apply N.div_lt; lia).
  cbn [parse_digits].
  rewrite digit_value_pretty_N_char by (apply N.mod_lt; lia).
  assert (Hlt : (Z.of_N (x `mod` 10) <? 10)%Z = true).
  { apply Z.ltb_lt. pose proof (N.mod_lt x 10). lia. }
  rewrite Hlt. f_equal. f_equal.
  pose proof (N.div_mod' x 10) as Hdm. clear Hlt IH.
  destruct (decide (x `div` 10 = 0)%N) as [Hq | Hq];
    cbn [default]; unfold Datatypes.id;
    revert Hdm Hq; generalize (x `div` 10)%N (x `mod` 10)%N; lia.
Qed.

(** The rendering of a positive number starts with a digit from 1 to 9. *)
Lemma pretty_N_go_head (x : N) (s : string) :
  (0 < x)%N →
  ∃ d rest, (0 < d < 10)%N ∧ pretty_N_go x s = String (pretty_N_char d) rest.
Proof.
  revert s. induction (N.lt_wf_0 x) as [x _ IH]. intros s Hx.
  rewrite pretty_N_go_step by done.
  destruct (decide (x `div` 10 = 0)%N) as [Hq | Hq].
  - rewrite Hq, pretty_N_go_0. exists (x `mod` 10)%N, s. split; [|done].
    pose proof (N.div_mod' x 10) as Hdm. pose proof (N.mod_lt x 10) as Hm.
    revert Hdm Hm Hq. generalize (x `div` 10)%N (x `mod` 10)%N. lia.
  - apply IH; [apply N.div_lt; lia |].
    revert Hq. generalize (x `div` 10)%N. lia.
Qed.

(** A string that starts with a digit from 1 to 9 has no white space, no
    sign and no hexadecimal prefix to strip. *)
Lemma parseInt_head_digit (d : N) (rest : string) :
  (0 < d < 10)%N →
  parseInt (String (pretty_N_char d) rest)
  = (mathInt ← parse_digits 10 (String (pretty_N_char d) rest) None;
     Some (1 * mathInt)%Z).
Proof.
  intros Hd.
  assert (d = 1 ∨ d = 2 ∨ d = 3 ∨ d = 4 ∨ d = 5 ∨ d = 6 ∨ d = 7
          ∨ d = 8 ∨ d = 9)%N as Hcases by lia.
  repeat destruct Hcases as [-> | Hcases]; try reflexivity.
  by subst d.
Qed.

Lemma parseInt_pretty (n : N) : parseInt (pretty n) = Some (Z.of_N n).
Proof.
  unfold pretty, pretty_N.
  destruct (decide (n = 0%N)) as [-> | Hn]; [reflexivity|].
  pose proof (parse_digits_pretty_N_go n "") as Hparse.
  destruct (pretty_N_go_head n "") as (d & rest & Hd & Hhead); [lia|].
  rewrite Hhead in Hparse |- *.
  destruct (decide (n = 0%N)); [done|].
  rewrite parseInt_head_digit, Hparse by done.
  cbn. f_equal. lia.
Qed.

Lemma or_else_pretty (n : N) (d : string) : or_else (Some (pretty n)) d = pretty n.
Proof.
  unfold pretty, pretty_N.
  destruct (decide (n = 0%N)) as [-> | Hn]; [reflexivity|].
  destruct (pretty_N_go_head n "") as (c & rest & _ & ->); [lia|].
  reflexivity.
Qed.

(** The parsed value of a parameter that is absent or the rendering of a
    natural number. *)
Lemma parseInt_param (p : option N) (d : N) :
  parseInt (or_else (pretty <$> p) (pretty d)) = Some (Z.of_N (default d p)).
Proof.
  destruct p as [n|]; cbn [fmap option_fmap option_map default].
  - by rewrite or_else_pretty, parseInt_pretty.
  - apply parseInt_pretty.
Qed.

(** ** [slice] between two non-negative indices *)

Lemma slice_nonneg {A} (l : list A) (offset limit : nat) :
  slice l (Some (Z.of_nat offset)) (Some (Z.of_nat offset + Z.of_nat limit)%Z)
  = take limit (drop offset l).
Proof.
  unfold slice, relative_index, ToIntegerOrInfinity.
  cbn [default]. unfold Datatypes.id.
  replace (Z.of_nat offset <? 0)%Z with false by (symmetry; apply Z.ltb_ge; lia).
  replace (Z.of_nat offset + Z.of_nat limit <? 0)%Z with false
    by (symmetry; apply Z.ltb_ge; lia).
  destruct (decide (length l ≤ offset)) as [Hge | Hlt].
  - rewrite (drop_ge l offset) by done. rewrite take_nil.
    rewrite drop_ge by lia. by rewrite take_nil.
  - replace (Z.to_nat (Z.min (Z.of_nat offset) (Z.of_nat (length l))))
      with offset by lia.
    destruct (decide (length l ≤ offset + limit)) as [Hend | Hend].
    + rewrite !take_ge; [done | rewrite length_drop; lia
                              | rewrite length_drop; lia].
    + f_equal. lia.
Qed.

(** The five keys of [enhancement_keys] are the only ones the listing
    sets: every other field of a listed entry is the stored one. *)
Lemma enhance_other r_score r_risk r_status r_flags (app : JsObj) k :
  k ∉ enhancement_keys →
  enhance r_score r_risk r_status r_flags app !! k = app !! k.
Proof.
  unfold enhancement_keys. intros Hk. unfold enhance.
  rewrite !lookup_insert_ne; [done|..]; intros <-; apply Hk; set_solver.
Qed.

(** C10.  For a limit [L] (10 when absent) and an offset [O] (0 when
    absent) given as natural numbers in the query string, the listing
    answers 200 with, under [applications], the entries built from the
    contiguous run of stored applications at indices [O] to [O + L - 1],
    in order: the entry at position [i] is the stored application at
    index [O + i] with the five enhancement keys set and every other field
    as stored.  Hence there are at most [L] entries, and none when [O] is
    at or beyond the end.  Under [total] it reports the number of all
    stored applications, whatever [L] and [O]. *)
Theorem list_returns_page (st : Store) (L O : option N)
    (random : nat → float) :
  let limit := N.to_nat (default 10%N L) in
  let offset := N.to_nat (default 0%N O) in
  let page := take limit (drop offset st) in
  let r := (GET (pretty <$> L) (pretty <$> O) random st).2 in
  status r = 200
  ∧ body r !! "applications"
    = Some (JArr (JObj <$>
        imap (λ i app,
                enhance (random (4 * i)) (random (4 * i + 1))
                        (random (4 * i + 2)) (random (4 * i + 3)) app)
             page))
  ∧ (∀ i, page !! i = if decide (i < limit) then st !! (offset + i) else None)
  ∧ (∀ r_score r_risk r_status r_flags app k,
       k ∉ enhancement_keys →
       enhance r_score r_risk r_status r_flags app !! k = app !! k)
  ∧ length page ≤ limit
  ∧ (length st ≤ offset → page = [])
  ∧ body r !! "total" = Some (total_of (length st)).
Proof.
  intros limit offset page r. subst r. rewrite GET_total.
  rewrite GET_unfold. cbn [snd body status].
  rewrite lookup_insert_eq.
  change "10" with (pretty 10%N). change "0" with (pretty 0%N).
  rewrite !parseInt_param. fold limit.
  unfold enhancedApplications, add. cbn [mbind option_bind].
  replace (Z.of_N (default 0%N O)) with (Z.of_nat offset)
    by (subst offset; lia).
  replace (Z.of_N (default 10%N L)) with (Z.of_nat (N.to_nat (default 10%N L)))
    by lia.
  rewrite slice_nonneg. fold limit page.
  split_and!; try done.
  - intros i. subst page. rewrite lookup_take, lookup_drop.
    by destruct (decide (i < limit)).
  - apply enhance_other.
  - subst page. rewrite length_take. lia.
  - intros Hge. subst page. rewrite drop_ge by done. apply take_nil.
Qed.

Lemma list_returns_page_witness :
  take 1 (drop 1 [sample_payload []; ∅; {[ "id" := JStr "7" ]}]) = [∅ : JsObj]
  ∧ body (GET (Some "1") (Some "1") (λ _, 0.25%float)
            [sample_payload []; ∅; {[ "id" := JStr "7" ]}]).2 !! "total"
    = Some (total_of 3).
Proof.
  split; [reflexivity|].
  exact (proj2 (proj2 (proj2 (proj2 (proj2 (proj2
    (list_returns_page [sample_payload []; ∅; {[ "id" := JStr "7" ]}]
       (Some 1%N) (Some 1%N) (λ _, 0.25%float)))))))).
Defined.

End Listing.

(* ===================================================================== *)
(** * Reading and updating one application *)
(* ===================================================================== *)

Section ById.

Import ApplicationByIdRoute.

Lemma GET_by_id_unfold id created (st : Store) :
  GET id created st = (st, mkResponse 200 (mockApplication id created)).
Proof. reflexivity. Qed.

Lemma PATCH_store id request_json (st : Store) :
  (PATCH id request_json st).1 = st.
Proof. by destruct request_json. Qed.

Lemma mockApplication_id id created :
  mockApplication id created !! "id" = Some (JStr id).
Proof. unfold mockApplication. rewrite list_to_map_cons. apply lookup_insert_eq. Qed.

Lemma mockApplication_status id created :
  mockApplication id created !! "status" = Some (JStr "PENDING").
Proof. vm_compute. reflexivity. Qed.

Lemma mockApplication_processing_status id created :
  mockApplication id created !! "processing_status" = None.
Proof. vm_compute. reflexivity. Qed.

(** C9.  Listing the applications, fetching one application and the
    PATCH update leave the store exactly as it was, for every store and
    every input: no record is added, removed or changed by them.  (The
    only handler that writes, the submit handler, appends: it leaves every
    record already stored in place.) *)
Theorem read_and_update_preserve_store (st : Store) :
  (∀ limit_param offset_param random,
     (ApplicationsRoute.GET limit_param offset_param random st).1 = st)
  ∧ (∀ id created, (GET id created st).1 = st)
  ∧ (∀ id request_json, (PATCH id request_json st).1 = st)
  ∧ (∀ request_json now created,
       ∃ suffix,
         (ApplicationsRoute.POST request_json now created st).1
         = st ++ suffix).
Proof.
  split_and!.
  - intros. by rewrite GET_unfold.
  - done.
  - intros. apply PATCH_store.
  - intros. apply POST_appends.
Qed.

(** C5, as stated, fails: fetching an identifier that no stored
    application carries is not answered with NotFound. *)
Lemma fetch_unknown_id_not_NotFound :
  ¬ ((∀ app : JsObj, app ∈ ([] : Store) → ¬ has_id "unknown" app) →
     NotFound (GET "unknown" 1759406400123 []).2).
Proof.
  intros H. rewrite GET_by_id_unfold in H. unfold NotFound in H. cbn in H.
  enough (200 = 404) by lia. apply H.
  intros app Happ. by apply elem_of_nil in Happ.
Qed.

(** C5, amended.  For every identifier, whether or not a stored
    application carries it, the fetch answers 200 with the fixed sample
    application carrying the requested identifier, and leaves the store
    as it was; it never answers NotFound. *)
Theorem fetch_any_id_returns_sample (id : string) (created : Z) (st : Store) :
  let '(st', r) := GET id created st in
  st' = st
  ∧ status r = 200
  ∧ body r = mockApplication id created
  ∧ body r !! "id" = Some (JStr id)
  ∧ ¬ NotFound r.
Proof.
  rewrite GET_by_id_unfold.
  split_and!; [done | done | done | apply mockApplication_id | done].
Qed.


(** C3, as stated, fails: after a submission with zero documents, the
    fetch of the new identifier does not report [processing_status]
    COMPLETED. *)
Lemma poll_zero_documents_not_COMPLETED :
  let '(st, r) :=
    ApplicationsRoute.POST (Normal (JObj (sample_payload [])))
      1759406400123 1759406400124 [] in
  body (GET (Date_now_toString 1759406400123) 1759406400125 st).2
    !! "processing_status" ≠ Some (JStr "COMPLETED").
Proof.
  destruct (ApplicationsRoute.POST _ _ _ _) as [st r].
  rewrite GET_by_id_unfold. cbn [snd body].
  by rewrite mockApplication_processing_status.
Qed.

(** C3, amended.  For every valid submission with zero documents, the
    submit handler does nothing but append the record to the store (its
    whole effect is the returned store: nothing is scheduled or
    dispatched), and a subsequent fetch of the new identifier returns at
    once, leaving the store as it is, the fixed sample application: it
    carries the requested identifier and [status] "PENDING", and has no
    [processing_status] field.  (The stored record keeps its empty
    [documents] array.) *)
Theorem submit_zero_documents_then_fetch (o : JsObj) (now created created' : Z)
    (st : Store) :
  valid_submission o = true → o !! "documents" = Some (JArr []) →
  let '(st', r) := ApplicationsRoute.POST (Normal (JObj o)) now created st in
  st' = st ++ [ApplicationsRoute.newApplication (JObj o) now created]
  ∧ ApplicationsRoute.newApplication (JObj o) now created !! "documents"
    = Some (JArr [])
  ∧ let '(st'', r') := GET (Date_now_toString now) created' st' in
    st'' = st'
    ∧ status r' = 200
    ∧ body r' !! "id" = Some (JStr (Date_now_toString now))
    ∧ body r' !! "status" = Some (JStr "PENDING")
    ∧ body r' !! "processing_status" = None.
Proof.
  intros Hvalid Hdocs. rewrite POST_object, Hvalid. cbn [negb].
  rewrite newApplication_other, Hdocs by done.
  assert (Hfetch : ∀ st' : Store,
    let '(st'', r') := GET (Date_now_toString now) created' st' in
    st'' = st'
    ∧ status r' = 200
    ∧ body r' !! "id" = Some (JStr (Date_now_toString now))
    ∧ body r' !! "status" = Some (JStr "PENDING")
    ∧ body r' !! "processing_status" = None).
  { intros st'. rewrite GET_by_id_unfold. cbn [body status].
    split_and!; [done | done | apply mockApplication_id
                | apply mockApplication_status
                | apply mockApplication_processing_status]. }
  destruct (loggable o); (split; [done | split; [done | apply Hfetch]]).
Qed.

Lemma submit_zero_documents_then_fetch_witness :
  valid_submission (sample_payload []) = true
  ∧ sample_payload [] !! "documents" = Some (JArr [])
  ∧ (ApplicationsRoute.POST (Normal (JObj (sample_payload []))) 5 6 []).1
    = [ApplicationsRoute.newApplication (JObj (sample_payload [])) 5 6].
Proof.
  assert (Hv : valid_submission (sample_payload []) = true)
    by (vm_compute; reflexivity).
  assert (Hd : sample_payload [] !! "documents" = Some (JArr []))
    by (vm_compute; reflexivity).
  split; [exact Hv|]. split; [exact Hd|].
  pose proof (submit_zero_documents_then_fetch (sample_payload [])
                5 6 7 [] Hv Hd) as H.
  destruct (ApplicationsRoute.POST _ _ _ _) as [st' r]. exact (proj1 H).
Defined.

End ById.

(* ===================================================================== *)
(** * The Status Aggregator *)
(* ===================================================================== *)

Section Aggregation.

Import StatusAggregator.

(** The aggregate is PROCESSING exactly when some document is not yet
    terminal. *)
Lemma recompute_status_PROCESSING (docs : list Document) :
  recompute_status docs = ProcessingStatus.PROCESSING
  ↔ ∃ s, s ∈ extraction_status <$> docs
         ∧ ExtractionStatus.is_terminal s = false.
Proof.
  unfold recompute_status.
  destruct (existsb _ docs) eqn:Hex.
  - split; [intros _ | done].
    apply existsb_exists in Hex as (d & Hd & Hnt).
    exists (extraction_status d). split.
    + apply list_elem_of_fmap. exists d. split; [done|]. by apply list_elem_of_In.
    + by apply negb_true_iff.
  - split; [done | intros (s & Hs & Hnt)].
    apply list_elem_of_fmap in Hs as (d & -> & Hd).
    assert (existsb (λ d, negb (ExtractionStatus.is_terminal (extraction_status d)))
              docs = true) as Htrue; [|congruence].
    apply existsb_exists. exists d. split; [by apply list_elem_of_In|].
    by apply negb_true_iff.
Qed.

Lemma recompute_status_cases (docs : list Document) :
  recompute_status docs = ProcessingStatus.PROCESSING
  ∨ recompute_status docs = ProcessingStatus.COMPLETED.
Proof. unfold recompute_status. destruct (existsb _ docs); auto. Qed.

(** C2.  The application-level status is recomputed from the documents'
    extraction_status values alone (two sequences of documents with the
    same statuses, in any order, give the same result), with this
    precedence: PROCESSING if any document is PENDING or PROCESSING;
    COMPLETED if every document is SUCCESS or FAILED, in particular if
    every document is FAILED.  After a pass of the aggregator the stored
    status is the recomputed one. *)
Theorem recompute_status_precedence (docs : list Document) :
  ((∃ d, d ∈ docs
         ∧ (extraction_status d = ExtractionStatus.PENDING
            ∨ extraction_status d = ExtractionStatus.PROCESSING)) →
   recompute_status docs = ProcessingStatus.PROCESSING)
  ∧ ((∀ d, d ∈ docs →
           extraction_status d = ExtractionStatus.SUCCESS
           ∨ extraction_status d = ExtractionStatus.FAILED) →
     recompute_status docs = ProcessingStatus.COMPLETED)
  ∧ ((∀ d, d ∈ docs → extraction_status d = ExtractionStatus.FAILED) →
     recompute_status docs = ProcessingStatus.COMPLETED)
  ∧ (∀ docs',
       extraction_status <$> docs ≡ₚ extraction_status <$> docs' →
       recompute_status docs = recompute_status docs')
  ∧ (∀ now index r app,
       processing_status (report now index r app)
       = recompute_status (documents (report now index r app))).
Proof.
  assert (Hterminal :
    (∀ d, d ∈ docs →
          extraction_status d = ExtractionStatus.SUCCESS
          ∨ extraction_status d = ExtractionStatus.FAILED) →
    recompute_status docs = ProcessingStatus.COMPLETED).
  { intros Hall.
    destruct (recompute_status_cases docs) as [Hp | Hc]; [|done].
    apply recompute_status_PROCESSING in Hp as (s & Hs & Hnt).
    apply list_elem_of_fmap in Hs as (d & -> & Hd).
    destruct (Hall d Hd) as [Heq | Heq]; by rewrite Heq in Hnt. }
  split_and!.
  - intros (d & Hd & Hst). apply recompute_status_PROCESSING.
    exists (extraction_status d). split.
    + apply list_elem_of_fmap. by exists d.
    + by destruct Hst as [-> | ->].
  - exact Hterminal.
  - intros Hall. apply Hterminal. intros d Hd. right. by apply Hall.
  - intros docs' Hperm.
    destruct (recompute_status_cases docs) as [Hp | Hc],
             (recompute_status_cases docs') as [Hp' | Hc']; try congruence.
    + apply recompute_status_PROCESSING in Hp as (s & Hs & Hnt).
      rewrite Hperm in Hs.
      assert (recompute_status docs' = ProcessingStatus.PROCESSING)
        by (apply recompute_status_PROCESSING; eauto).
      congruence.
    + apply recompute_status_PROCESSING in Hp' as (s & Hs & Hnt).
      rewrite <-Hperm in Hs.
      assert (recompute_status docs = ProcessingStatus.PROCESSING)
        by (apply recompute_status_PROCESSING; eauto).
      congruence.
  - done.
Qed.

Lemma recompute_status_precedence_witness :
  (∀ d, d ∈ [ mkDocument "pitch_deck" ("%PDF", "application/pdf")
                ExtractionStatus.FAILED None (Some "corrupt file") 1;
              mkDocument "other_pdfs" ("", "application/pdf")
                ExtractionStatus.FAILED None (Some "timeout") 3 ] →
        extraction_status d = ExtractionStatus.FAILED)
  ∧ recompute_status
      [ mkDocument "pitch_deck" ("%PDF", "application/pdf")
          ExtractionStatus.FAILED None (Some "corrupt file") 1;
        mkDocument "other_pdfs" ("", "application/pdf")
          ExtractionStatus.FAILED None (Some "timeout") 3 ]
    = ProcessingStatus.COMPLETED.
Proof.
  assert (H : ∀ d, d ∈ [ mkDocument "pitch_deck" ("%PDF", "application/pdf")
                ExtractionStatus.FAILED None (Some "corrupt file") 1;
              mkDocument "other_pdfs" ("", "application/pdf")
                ExtractionStatus.FAILED None (Some "timeout") 3 ] →
        extraction_status d = ExtractionStatus.FAILED).
  { intros d Hd. apply list_elem_of_In in Hd.
    destruct Hd as [<- | [<- | []]]; reflexivity. }
  split; [exact H|].
  exact (proj1 (proj2 (proj2 (recompute_status_precedence _))) H).
Defined.

End Aggregation.

(* ===================================================================== *)
(** * The Document Extractor *)
(* ===================================================================== *)

Section Extraction.

Import DocumentExtractor.

Variable extract : nat → Outcome.
Variable max_attempts : nat.
Variables base cap : Z.

(** The capability fails with a retryable failure at every call. *)
Hypothesis always_retryable : ∀ n, ∃ reason, extract n = RetryableFailure reason.

Local Abbreviation attempts k d :=
  (Nat.iter k (attempt extract max_attempts) d).

(** An attempt counts itself, whatever its outcome. *)
Lemma attempt_count_attempt (d : Document) :
  attempt_count (attempt extract max_attempts d) = S (attempt_count d).
Proof.
  unfold attempt. destruct (extract _); [done | by destruct (_ <? _) | done].
Qed.

(** A failed attempt short of the limit leaves the document in flight. *)
Lemma attempt_retry (d : Document) :
  S (attempt_count d) < max_attempts →
  ExtractionStatus.is_terminal
    (extraction_status (attempt extract max_attempts d)) = false.
Proof.
  intros Hlt. unfold attempt.
  destruct (always_retryable (S (attempt_count d))) as [reason ->].
  apply Nat.ltb_lt in Hlt. by rewrite Hlt.
Qed.

(** A failed attempt that reaches the limit is converted to FAILED, with
    its error recorded. *)
Lemma attempt_last (d : Document) :
  max_attempts ≤ S (attempt_count d) →
  extraction_status (attempt extract max_attempts d) = ExtractionStatus.FAILED
  ∧ ∃ reason, extract (S (attempt_count d)) = RetryableFailure reason
              ∧ extraction_error (attempt extract max_attempts d) = Some reason.
Proof.
  intros Hge. unfold attempt.
  destruct (always_retryable (S (attempt_count d))) as [reason ->].
  apply Nat.ltb_ge in Hge. rewrite Hge. split; [done|]. by exists reason.
Qed.

(** Before the last permitted attempt the document is still in flight. *)
Lemma attempts_in_flight (d : Document) (k : nat) :
  extraction_status d = ExtractionStatus.PENDING → attempt_count d = 0 →
  k < max_attempts →
  attempt_count (attempts k d) = k
  ∧ ExtractionStatus.is_terminal (extraction_status (attempts k d)) = false.
Proof.
  intros Hst Hcount. induction k as [|k IH]; intros Hk.
  - cbn. by rewrite Hst.
  - destruct IH as [IHc IHs]; [lia|].
    rewrite Nat.iter_succ. split.
    + by rewrite attempt_count_attempt, IHc.
    + apply attempt_retry. by rewrite IHc.
Qed.

(** The attempt numbered [max_attempts] converts the failure to FAILED. *)
Lemma attempts_exhausted (d : Document) :
  extraction_status d = ExtractionStatus.PENDING → attempt_count d = 0 →
  1 ≤ max_attempts →
  extraction_status (attempts max_attempts d) = ExtractionStatus.FAILED
  ∧ attempt_count (attempts max_attempts d) = max_attempts
  ∧ ∃ reason, extract max_attempts = RetryableFailure reason
              ∧ extraction_error (attempts max_attempts d) = Some reason.
Proof.
  intros Hst Hcount Hmax.
  assert (∃ m, max_attempts = S m) as [m Hm]
    by (exists (max_attempts - 1); lia).
  destruct (attempts_in_flight d m Hst Hcount) as [Hc _]; [lia|].
  assert (Hlast : ∀ n, n = S m →
    attempts n d = attempt extract max_attempts (attempts m d))
    by (by intros n ->).
  rewrite (Hlast max_attempts Hm).
  destruct (attempt_last (attempts m d)) as (Hf & reason & Hr & He); [lia|].
  rewrite attempt_count_attempt, Hc, <-Hm. rewrite Hc, <-Hm in Hr.
  split_and!; [done | done |]. by exists reason.
Qed.

(** The loop from a document in flight. *)
Lemma run_from (fuel : nat) (d : Document) :
  ExtractionStatus.is_terminal (extraction_status d) = false →
  attempt_count d < max_attempts →
  max_attempts - attempt_count d ≤ fuel →
  ∃ events,
    run fuel extract max_attempts base cap d
    = Some (attempts (max_attempts - attempt_count d) d, events)
    ∧ filter is_invocation events
      = Invoked <$> seq (S (attempt_count d)) (max_attempts - attempt_count d).
Proof.
  revert d. induction fuel as [|fuel IH]; intros d Hst Hlt Hfuel; [lia|].
  cbn [run]. rewrite Hst.
  pose proof (attempt_count_attempt d) as Hc'.
  replace (max_attempts - attempt_count d)
    with (S (max_attempts - S (attempt_count d))) by lia.
  rewrite Nat.iter_succ_r.
  destruct (decide (S (attempt_count d) = max_attempts)) as [Hlast | Hmore].
  - destruct (attempt_last d) as [Hf _]; [lia|].
    rewrite Hf. cbn [ExtractionStatus.is_terminal].
    replace (max_attempts - S (attempt_count d)) with 0 by lia.
    destruct fuel; cbn [run]; rewrite Hf; cbn;
      (eexists; split; [reflexivity|]); by rewrite Hc'.
  - pose proof (attempt_retry d) as Hp. rewrite Hp by lia.
    destruct (IH (attempt extract max_attempts d)) as (events & Hrun & Hev);
      [apply Hp; lia | lia | lia |].
    rewrite Hc' in Hrun, Hev. rewrite Hrun.
    cbn [mbind option_bind]. eexists. split; [reflexivity|].
    rewrite filter_cons_True by done.
    rewrite filter_app, filter_cons_False, filter_nil by (by intros ?).
    cbn [app seq]. by rewrite Hev, Hc', fmap_cons.
Qed.

(** C8.  For a document whose extraction calls always return a
    retryable failure, with at least one attempt permitted: after each of
    the first [max_attempts - 1] attempts the document is not FAILED (it
    is still in flight, with attempt_count the number of attempts made);
    the attempt numbered [max_attempts] sets FAILED with attempt_count
    equal to [max_attempts] and the last error recorded; and the
    extractor, given enough fuel, returns that document after invoking
    the capability exactly for the attempts 1 to [max_attempts], and does
    not invoke it when run again on the failed document. *)
Theorem always_retryable_fails_at_max_attempts (d : Document) :
  1 ≤ max_attempts →
  extraction_status d = ExtractionStatus.PENDING → attempt_count d = 0 →
  (∀ k, k < max_attempts →
        attempt_count (attempts k d) = k
        ∧ extraction_status (attempts k d) ≠ ExtractionStatus.FAILED)
  ∧ extraction_status (attempts max_attempts d) = ExtractionStatus.FAILED
  ∧ attempt_count (attempts max_attempts d) = max_attempts
  ∧ (∃ reason, extract max_attempts = RetryableFailure reason
               ∧ extraction_error (attempts max_attempts d) = Some reason)
  ∧ ∀ fuel, max_attempts ≤ fuel →
      ∃ events,
        run fuel extract max_attempts base cap d
        = Some (attempts max_attempts d, events)
        ∧ filter is_invocation events = Invoked <$> seq 1 max_attempts
        ∧ length (filter is_invocation events) = max_attempts
        ∧ run fuel extract max_attempts base cap (attempts max_attempts d)
          = Some (attempts max_attempts d, []).
Proof.
  intros Hmax Hst Hcount.
  destruct (attempts_exhausted d Hst Hcount Hmax) as (Hfailed & Hc & Herr).
  split_and!; try done.
  - intros k Hk.
    destruct (attempts_in_flight d k Hst Hcount Hk) as [Hck Hnt].
    split; [done|]. intros Heq. by rewrite Heq in Hnt.
  - intros fuel Hfuel.
    destruct (run_from fuel d) as (events & Hrun & Hev).
    + by rewrite Hst.
    + lia.
    + lia.
    + rewrite Hcount, Nat.sub_0_r in Hrun, Hev.
      exists events. split_and!; [done | done | |].
      * by rewrite Hev, length_fmap, length_seq.
      * destruct fuel; cbn [run]; by rewrite Hfailed.
Qed.

End Extraction.

Lemma always_retryable_fails_at_max_attempts_witness :
  1 ≤ DocumentExtractor.default_max_attempts
  ∧ extraction_status
      (Nat.iter DocumentExtractor.default_max_attempts
         (DocumentExtractor.attempt
            (λ _, DocumentExtractor.RetryableFailure "timeout")
            DocumentExtractor.default_max_attempts)
         (new_document "pitch_deck" ("%PDF", "application/pdf")))
    = ExtractionStatus.FAILED.
Proof.
  assert (Hmax : 1 ≤ DocumentExtractor.default_max_attempts)
    by (unfold DocumentExtractor.default_max_attempts; lia).
  split; [exact Hmax|].
  exact (proj1 (proj2
    (always_retryable_fails_at_max_attempts
       (λ _, DocumentExtractor.RetryableFailure "timeout")
       DocumentExtractor.default_max_attempts 1000 60000
       (λ n, ex_intro _ "timeout" eq_refl)
       (new_document "pitch_deck" ("%PDF", "application/pdf"))
       Hmax eq_refl eq_refl))).
Defined.

(* ===================================================================== *)
(** * More on the submit handler *)
(* ===================================================================== *)

Section SubmitOutcomes.

Import ApplicationsRoute.

(** For an object payload the handler answers 400, 201 or 500.  The
    record is stored exactly when the validation passes; the answer is
    201 exactly when moreover the log line can be rendered, and 500
    exactly when it cannot: a 500 answer is always given after the record
    has been stored. *)
Theorem submit_object_outcomes (o : JsObj) (now created : Z) (st : Store) :
  let '(st', r) := POST (Normal (JObj o)) now created st in
  (status r = 400 ∨ status r = 201 ∨ status r = 500)
  ∧ (st' = st ++ [newApplication (JObj o) now created]
     ↔ valid_submission o = true)
  ∧ (st' = st ↔ valid_submission o = false)
  ∧ (status r = 400 ↔ valid_submission o = false)
  ∧ (status r = 201 ↔ valid_submission o = true ∧ loggable o = true)
  ∧ (status r = 500 ↔ valid_submission o = true ∧ loggable o = false).
Proof.
  rewrite POST_object.
  assert (Hgrow : st ++ [newApplication (JObj o) now created] ≠ st).
  { intros Heq. apply (f_equal length) in Heq.
    rewrite length_app in Heq. cbn in Heq. lia. }
  destruct (valid_submission o), (loggable o); cbn [negb];
    split_and!; try tauto; try (by auto);
    try (split; [by intros [=] | by intros [? ?]]);
    try (split; [by intros [=] | done]);
    try (split; [done | by intros [? ?]]);
    try (split; [by intros ?%symmetry%Hgrow | done]).
Qed.

(** A valid payload whose [funding_amount_seeking] is absent or [null]
    is stored and answered 500 all the same; a client that retries the
    submission after that answer stores a second record. *)
Theorem submit_without_funding_amount (o : JsObj) (now created : Z)
    (now' created' : Z) (st : Store) :
  valid_submission o = true →
  o !! "funding_amount_seeking" = None
  ∨ o !! "funding_amount_seeking" = Some JNull →
  POST (Normal (JObj o)) now created st
  = (st ++ [newApplication (JObj o) now created], internal_server_error)
  ∧ (POST (Normal (JObj o)) now' created'
          (POST (Normal (JObj o)) now created st).1).1
    = st ++ [newApplication (JObj o) now created;
             newApplication (JObj o) now' created'].
Proof.
  intros Hvalid Hamount.
  assert (Hlog : loggable o = false).
  { unfold loggable, prop. destruct Hamount as [-> | ->]; cbn;
      apply andb_false_r. }
  rewrite !POST_object, Hvalid, Hlog. cbn [negb fst snd].
  split; [done|]. by rewrite <-app_assoc.
Qed.

Lemma submit_without_funding_amount_witness :
  valid_submission {[ "company_name" := JStr "Test Inc" ;
                      "primary_business_model" := JStr "SaaS" ;
                      "current_stage" := JStr "MVP" ]} = true
  ∧ status (POST (Normal (JObj {[ "company_name" := JStr "Test Inc" ;
                                   "primary_business_model" := JStr "SaaS" ;
                                   "current_stage" := JStr "MVP" ]}))
                 5 6 []).2 = 500.
Proof.
  assert (Hv : valid_submission {[ "company_name" := JStr "Test Inc" ;
                      "primary_business_model" := JStr "SaaS" ;
                      "current_stage" := JStr "MVP" ]} = true)
    by (vm_compute; reflexivity).
  split; [exact Hv|].
  pose proof (submit_without_funding_amount _ 5 6 7 8 [] Hv
                (or_introl eq_refl)) as [H _].
  rewrite H. reflexivity.
Defined.

(** A body that is not a JSON object is never stored and never answered
    201: a body that is not JSON, or is [null], is answered 500 (the
    first property read throws); a string, a number, a boolean or an
    array is answered with the validation error. *)
Theorem submit_non_object (request_json : Completion JsVal)
    (now created : Z) (st : Store) :
  (∀ o, request_json ≠ Normal (JObj o)) →
  let '(st', r) := POST request_json now created st in
  st' = st
  ∧ (r = internal_server_error
     ↔ request_json = Throw ∨ request_json = Normal JNull
       ∨ request_json = Normal JUndefined)
  ∧ (r = validation_error
     ↔ ∃ v, request_json = Normal v ∧ is_nullish v = false).
Proof.
  intros Hno.
  destruct request_json as [[| |b|x|s|xs|o]|]; cbn;
    try (by destruct (Hno o));
    (split; [done|]); split; split;
    try (by intros [=]); try (by intros [[=] | [[=] | [=]]]);
    try (by intros (v & [= <-] & [=])); try (by intros (v & [=] & _));
    try (by auto); try (intros _; by eexists).
Qed.

Lemma submit_non_object_witness :
  (∀ o, Normal (JArr [JStr "Test Inc"]) ≠ Normal (JObj o))
  ∧ POST (Normal (JArr [JStr "Test Inc"])) 5 6 [] = ([], validation_error).
Proof.
  assert (H : ∀ o, Normal (JArr [JStr "Test Inc"]) ≠ Normal (JObj o))
    by (intros o Heq; discriminate Heq).
  split; [exact H|].
  pose proof (submit_non_object (Normal (JArr [JStr "Test Inc"])) 5 6 [] H)
    as Hs.
  destruct (POST _ _ _ _) as [st' r].
  destruct Hs as (-> & _ & Hv). f_equal.
  apply Hv. exists (JArr [JStr "Test Inc"]). split; reflexivity.
Defined.

End SubmitOutcomes.

(* ===================================================================== *)
(** * More on the listing *)
(* ===================================================================== *)

Section ListingEdges.

Import ApplicationsRoute.

Lemma GET_applications limit_param offset_param random (st : Store) :
  body (GET limit_param offset_param random st).2 !! "applications"
  = Some (JArr (JObj <$> enhancedApplications random st
                  (parseInt (or_else limit_param "10"))
                  (parseInt (or_else offset_param "0")))).
Proof. rewrite GET_unfold. cbn [snd body]. by rewrite lookup_insert_eq. Qed.

Lemma length_enhancedApplications random (st : Store) limit offset :
  length (enhancedApplications random st limit offset)
  = length (slice st offset (add offset limit)).
Proof. unfold enhancedApplications. apply length_imap. Qed.

(** An end index that is NaN selects nothing. *)
Lemma slice_end_NaN {A} (l : list A) start : slice l start None = [].
Proof.
  unfold slice, relative_index, ToIntegerOrInfinity.
  generalize (default 0%Z start). intros z.
  cbn [default]. unfold Datatypes.id.
  replace (0 <? 0)%Z with false by reflexivity.
  replace (Z.to_nat _) with 0; [done|].
  destruct (Z.ltb_spec z 0); lia.
Qed.

(** With a limit that is not negative, a slice has at most [limit]
    elements, wherever it starts. *)
Lemma length_slice_limit {A} (l : list A) (offset limit : Z) :
  (0 ≤ limit)%Z →
  length (slice l (Some offset) (Some (offset + limit)%Z)) ≤ Z.to_nat limit.
Proof.
  intros Hlimit. unfold slice, relative_index, ToIntegerOrInfinity.
  cbn [default]. unfold Datatypes.id.
  rewrite length_take.
  destruct (Z.ltb_spec offset 0), (Z.ltb_spec (offset + limit) 0); lia.
Qed.

(** When [limit] or [offset] does not start with a number (after white
    space and a sign), the listing answers 200 with no entry, and still
    reports the number of stored applications under [total]. *)
Theorem list_unparsable_parameter (limit_param offset_param : option string)
    (random : nat → float) (st : Store) :
  parseInt (or_else limit_param "10") = None
  ∨ parseInt (or_else offset_param "0") = None →
  let r := (GET limit_param offset_param random st).2 in
  status r = 200
  ∧ body r !! "applications" = Some (JArr [])
  ∧ body r !! "total" = Some (total_of (length st)).
Proof.
  intros Hnan r. subst r. rewrite GET_total, GET_applications.
  split; [done|]. split; [|done].
  unfold enhancedApplications.
  replace (add (parseInt (or_else offset_param "0"))
               (parseInt (or_else limit_param "10"))) with (@None Z).
  - by rewrite slice_end_NaN.
  - destruct Hnan as [-> | ->]; [|done].
    by destruct (parseInt (or_else offset_param "0")).
Qed.

Lemma list_unparsable_parameter_witness :
  (parseInt (or_else (Some "ten") "10") = None
   ∨ parseInt (or_else None "0") = None)
  ∧ body (GET (Some "ten") None (λ _, 0.5%float) [sample_payload []]).2
      !! "applications" = Some (JArr []).
Proof.
  assert (H : parseInt (or_else (Some "ten") "10") = None
              ∨ parseInt (or_else None "0") = None)
    by (left; vm_compute; reflexivity).
  split; [exact H|].
  exact (proj1 (proj2 (list_unparsable_parameter (Some "ten") None
                         (λ _, 0.5%float) [sample_payload []] H))).
Defined.

(** When [limit] parses to a number that is not negative, the listing
    has at most that many entries, whatever [offset] is (a negative
    offset, which counts from the end, included). *)
Theorem list_page_size_bounded (limit_param offset_param : option string)
    (random : nat → float) (st : Store) (limit : Z) :
  parseInt (or_else limit_param "10") = Some limit → (0 ≤ limit)%Z →
  ∃ entries,
    body (GET limit_param offset_param random st).2 !! "applications"
    = Some (JArr (JObj <$> entries))
    ∧ length entries ≤ Z.to_nat limit
    ∧ length entries ≤ length st.
Proof.
  intros Hlimit Hnonneg. rewrite GET_applications, Hlimit.
  eexists. split; [reflexivity|].
  rewrite length_enhancedApplications.
  destruct (parseInt (or_else offset_param "0")) as [offset|]; cbn.
  - split; [by apply length_slice_limit|].
    unfold slice. rewrite length_take, length_drop. lia.
  - rewrite slice_end_NaN. cbn. lia.
Qed.

Lemma list_page_size_bounded_witness :
  parseInt (or_else (Some "1") "10") = Some 1%Z ∧ (0 ≤ 1)%Z
  ∧ ∃ entries,
      body (GET (Some "1") (Some "-2") (λ _, 0.5%float)
              [sample_payload []; ∅; ∅]).2 !! "applications"
      = Some (JArr (JObj <$> entries))
      ∧ length entries ≤ 1.
Proof.
  assert (H : parseInt (or_else (Some "1") "10") = Some 1%Z)
    by (vm_compute; reflexivity).
  assert (H0 : (0 ≤ 1)%Z) by lia.
  split; [exact H|]. split; [exact H0|].
  destruct (list_page_size_bounded (Some "1") (Some "-2") (λ _, 0.5%float)
              [sample_payload []; ∅; ∅] 1 H H0) as (entries & He & Hl & _).
  exists entries. split; [exact He | exact Hl].
Defined.

(** ** A negative limit *)

Lemma parseInt_minus_pretty (k : N) :
  parseInt ("-" +:+ pretty k) = Some (- Z.of_N k)%Z.
Proof.
  unfold pretty, pretty_N.
  destruct (decide (k = 0%N)) as [-> | Hk]; [reflexivity|].
  pose proof (parse_digits_pretty_N_go k "") as Hparse.
  destruct (pretty_N_go_head k "") as (d & rest & Hd & Hhead); [lia|].
  rewrite Hhead in Hparse |- *.
  destruct (decide (k = 0%N)); [done|].
  assert (parseInt ("-" +:+ String (pretty_N_char d) rest)
          = (mathInt ← parse_digits 10 (String (pretty_N_char d) rest) None;
             Some (-1 * mathInt)%Z)) as ->.
  { assert (d = 1 ∨ d = 2 ∨ d = 3 ∨ d = 4 ∨ d = 5 ∨ d = 6 ∨ d = 7
            ∨ d = 8 ∨ d = 9)%N as Hcases by lia.
    repeat destruct Hcases as [-> | Hcases]; try reflexivity.
    by subst d. }
  rewrite Hparse. cbn. f_equal; lia.
Qed.

(** A negative limit is not rejected: with no offset, [limit=-k] for
    [k > 0] lists all the stored applications but the last [k]. *)
Theorem list_negative_limit (k : N) (random : nat → float) (st : Store) :
  (0 < k)%N →
  body (GET (Some ("-" +:+ pretty k)) None random st).2 !! "applications"
  = Some (JArr (JObj <$>
       imap (λ i app,
               enhance (random (4 * i)) (random (4 * i + 1))
                       (random (4 * i + 2)) (random (4 * i + 3)) app)
            (take (length st - N.to_nat k) st))).
Proof.
  intros Hk. rewrite GET_applications.
  replace (or_else (Some ("-" +:+ pretty k)) "10") with ("-" +:+ pretty k)
    by reflexivity.
  rewrite parseInt_minus_pretty.
  replace (parseInt (or_else None "0")) with (Some 0%Z) by reflexivity.
  unfold enhancedApplications, add. cbn [mbind option_bind].
  do 3 f_equal.
  unfold slice, relative_index, ToIntegerOrInfinity.
  cbn [default]. unfold Datatypes.id.
  replace (0 <? 0)%Z with false by reflexivity.
  replace (Z.to_nat (0 `min` Z.of_nat (length st))) with 0 by lia.
  rewrite drop_0.
  match goal with
  | |- context [take ?n st] =>
      replace n with (length st - N.to_nat k); [done|]
  end.
  destruct (Z.ltb_spec (0 + - Z.of_N k) 0); lia.
Qed.

Lemma list_negative_limit_witness :
  (0 < 1)%N
  ∧ body (GET (Some "-1") None (λ _, 0.5%float)
            [sample_payload []; ∅]).2 !! "applications"
    = Some (JArr [JObj (enhance 0.5 0.5 0.5 0.5 (sample_payload []))]).
Proof.
  assert (H : (0 < 1)%N) by lia.
  split; [exact H|].
  exact (list_negative_limit 1 (λ _, 0.5%float) [sample_payload []; ∅] H).
Defined.

(** ** Text after the digits *)

Lemma string_app_assoc (a b c : string) :
  (a +:+ b) +:+ c = a +:+ (b +:+ c).
Proof.
  induction a as [|x a IH]; [done|].
  change (String x ((a +:+ b) +:+ c) = String x (a +:+ (b +:+ c))).
  by rewrite IH.
Qed.

Lemma pretty_N_go_app (x : N) (s : string) :
  pretty_N_go x s = pretty_N_go x "" +:+ s.
Proof.
  revert s. induction (N.lt_wf_0 x) as [x _ IH]. intros s.
  destruct (decide (x = 0%N)) as [-> | Hx]; [done|].
  assert (Hlt : (x `div` 10 < x)%N) by (apply N.div_lt; lia).
  rewrite !(pretty_N_go_step x) by lia.
  rewrite (IH _ Hlt (String _ s)), (IH _ Hlt (String _ "")).
  by rewrite string_app_assoc.
Qed.

(** [parseInt] reads the leading digits and ignores what follows them:
    a parameter such as ["5abc"] or ["2.5"] is taken as its leading
    number (a natural number below 2^53, which a double holds
    exactly). *)
Theorem parseInt_ignores_suffix (n : N) (c : ascii) (rest : string) :
  (n < 2 ^ 53)%N →
  digit_value c = None ∨ (∃ d, digit_value c = Some d ∧ (10 ≤ d)%Z) →
  c ≠ "x"%char → c ≠ "X"%char →
  parseInt (pretty n +:+ String c rest) = Some (Z.of_N n)
  ∧ ∀ offset_param random (st : Store),
      GET (Some (pretty n +:+ String c rest)) offset_param random st
      = GET (Some (pretty n)) offset_param random st.
Proof.
  intros _ Hc Hx HX.
  assert (Hstop : ∀ acc, parse_digits 10 (String c rest) acc = acc).
  { intros acc. cbn [parse_digits].
    destruct Hc as [-> | (d & -> & Hd)]; [done|].
    by replace (d <? 10)%Z with false by (symmetry; apply Z.ltb_ge; lia). }
  assert (Hparse : parseInt (pretty n +:+ String c rest) = Some (Z.of_N n)).
  { unfold pretty, pretty_N.
    destruct (decide (n = 0%N)) as [-> | Hn].
    - change ("0" +:+ String c rest) with (String "0" (String c rest)).
      unfold parseInt. cbn [trim_start].
      replace (is_white_space "0") with false by reflexivity.
      assert (Hdigits : parse_digits 10 (String "0" (String c rest)) None
                        = Some 0%Z).
      { change (parse_digits 10 (String "0" (String c rest)) None)
          with (parse_digits 10 (String c rest) (Some 0%Z)).
        apply Hstop. }
      destruct c as [[] [] [] [] [] [] [] []];
        try (by rewrite ?Hdigits); try (by destruct Hx); by destruct HX.
    - rewrite <-pretty_N_go_app.
      pose proof (parse_digits_pretty_N_go n (String c rest)) as Hp.
      destruct (pretty_N_go_head n (String c rest))
        as (d & tail & Hd & Hhead); [lia|].
      rewrite Hhead in Hp |- *.
      destruct (decide (n = 0%N)); [done|].
      rewrite parseInt_head_digit, Hp, Hstop by done.
      cbn. f_equal. lia. }
  split; [exact Hparse|].
  intros offset_param random st. rewrite !GET_unfold.
  assert (Hor : ∀ s, s ≠ "" → or_else (Some s) "10" = s)
    by (by intros [|? ?]).
  rewrite (Hor (pretty n +:+ String c rest)), or_else_pretty.
  - by rewrite Hparse, parseInt_pretty.
  - destruct (pretty n); discriminate.
Qed.

Lemma parseInt_ignores_suffix_witness :
  (2 < 2 ^ 53)%N
  ∧ (digit_value "." = None ∨ ∃ d, digit_value "." = Some d ∧ (10 ≤ d)%Z)
  ∧ "."%char ≠ "x"%char ∧ "."%char ≠ "X"%char
  ∧ parseInt (pretty 2%N +:+ String "." "5") = Some 2%Z.
Proof.
  assert (Hn : (2 < 2 ^ 53)%N) by (vm_compute; reflexivity).
  assert (H : digit_value "." = None
              ∨ ∃ d, digit_value "." = Some d ∧ (10 ≤ d)%Z)
    by (left; reflexivity).
  assert (Hx : "."%char ≠ "x"%char) by (intros Heq; discriminate Heq).
  assert (HX : "."%char ≠ "X"%char) by (intros Heq; discriminate Heq).
  split; [exact Hn|]. split; [exact H|]. split; [exact Hx|].
  split; [exact HX|].
  exact (proj1 (parseInt_ignores_suffix 2 "." "5" Hn H Hx HX)).
Defined.

(** The five keys the listing sets hide what is stored under them: the
    value listed under such a key does not depend on the stored
    application. *)
Theorem enhancement_hides_stored (r_score r_risk r_status r_flags : float)
    (app app' : JsObj) (k : string) :
  k ∈ enhancement_keys →
  enhance r_score r_risk r_status r_flags app !! k
  = enhance r_score r_risk r_status r_flags app' !! k
  ∧ is_Some (enhance r_score r_risk r_status r_flags app !! k).
Proof.
  unfold enhancement_keys. intros Hk.
  repeat (apply elem_of_cons in Hk as [-> | Hk]);
    [..| by apply elem_of_nil in Hk];
    unfold enhance; rewrite !lookup_insert;
    repeat case_decide; try done; (split; [done | by eexists]).
Qed.

Lemma enhancement_hides_stored_witness :
  "status" ∈ enhancement_keys
  ∧ enhance 0.5 0.5 0.75 0.25 {[ "status" := JStr "APPROVED" ]} !! "status"
    = enhance 0.5 0.5 0.75 0.25 ∅ !! "status".
Proof.
  assert (H : "status" ∈ enhancement_keys)
    by (unfold enhancement_keys; do 2 right; left).
  split; [exact H|].
  exact (proj1 (enhancement_hides_stored 0.5 0.5 0.75 0.25
                  {[ "status" := JStr "APPROVED" ]} ∅ "status" H)).
Defined.

End ListingEdges.

(* ===================================================================== *)
(** * The routes that forward to the backend *)
(* ===================================================================== *)

Section Forwarding.

Import BackendProxy.

(** Unfolds the plumbing of a forwarding handler. *)
Ltac unfold_proxy :=
  unfold Applications.POST, Applications.GET, Enrich.POST, try_catch,
    fetch, await, mbind, mret, Proxy_bind, Proxy_ret;
  cbn beta iota.

Lemma NextResponse_json_with_status b s r :
  NextResponse_json_with b (Some s) = Normal r → res_status r = s.
Proof.
  unfold NextResponse_json_with. cbn [default]. unfold Datatypes.id.
  destruct (_ || _); [done|]. destruct (_ || _); [done|].
  destruct b; by intros [= <-].
Qed.

Lemma NextResponse_json_with_forwardable b s :
  forwardable s → b ≠ JUndefined →
  NextResponse_json_with b (Some s) = Normal (mkJsonResponse s b).
Proof.
  intros [Hrange H304] Hb. unfold NextResponse_json_with.
  cbn [default]. unfold Datatypes.id.
  replace (s <? 200) with false by (symmetry; apply Nat.ltb_ge; lia).
  replace (599 <? s) with false by (symmetry; apply Nat.ltb_ge; lia).
  replace (s =? 204) with false by (symmetry; apply Nat.eqb_neq; lia).
  replace (s =? 205) with false by (symmetry; apply Nat.eqb_neq; lia).
  replace (s =? 304) with false by (symmetry; apply Nat.eqb_neq; lia).
  cbn. by destruct b.
Qed.

Lemma forwardable_not_ok s : forwardable s → ok_status s = false.
Proof.
  intros [Hrange _]. unfold ok_status.
  replace (s <=? 299) with false by (symmetry; apply Nat.leb_gt; lia).
  apply andb_false_r.
Qed.

(** A failure of the backend is never reported as a success: when every
    call to the backend is rejected or answered with a status outside
    200..299, each of the three handlers answers with a status outside
    200..299. *)
Theorem forwarding_failure_not_success (env : option string)
    (backend : Backend) :
  (∀ request r,
     backend request = Normal r → ok_status (backend_status r) = false) →
  (∀ request_formData calls,
     ok_status (res_status
       (Applications.POST env backend request_formData calls).2) = false)
  ∧ (∀ limit_param offset_param calls,
       ok_status (res_status
         (Applications.GET env backend limit_param offset_param calls).2)
       = false)
  ∧ (∀ id calls,
       ok_status (res_status (Enrich.POST env backend id calls).2) = false).
Proof.
  intros Hfail. split_and!.
  - intros [formData|] calls; [|done]. unfold_proxy.
    destruct (backend _) as [response|] eqn:Hb; [|done].
    rewrite (Hfail _ _ Hb). cbn [negb].
    destruct (backend_json response) as [v|]; [|done].
    destruct (error_or v _) as [e|]; [|done].
    destruct (NextResponse_json_with _ _) as [r|] eqn:Hr; [|done].
    cbn. rewrite (NextResponse_json_with_status _ _ _ Hr). eauto.
  - intros limit_param offset_param calls. unfold_proxy.
    destruct (backend _) as [response|] eqn:Hb; [|done].
    rewrite (Hfail _ _ Hb). cbn [negb].
    destruct (backend_json response) as [v|]; [|done].
    destruct (error_or v _) as [e|]; [|done].
    destruct (NextResponse_json_with _ _) as [r|] eqn:Hr; [|done].
    cbn. rewrite (NextResponse_json_with_status _ _ _ Hr). eauto.
  - intros id calls. unfold_proxy.
    destruct id as [|c id]; [done|]. cbn [ToBoolean negb].
    destruct (backend _) as [response|] eqn:Hb; [|done].
    rewrite (Hfail _ _ Hb). cbn [negb].
    destruct (error_or _ _) as [e|]; [|done].
    destruct (NextResponse_json_with _ _) as [r|] eqn:Hr; [|done].
    cbn. rewrite (NextResponse_json_with_status _ _ _ Hr). eauto.
Qed.

Lemma forwarding_failure_not_success_witness :
  (∀ (request : BackendRequest) r,
     (λ _ : BackendRequest, Normal (mkBackendResponse 503 Throw)) request
     = Normal r →
     ok_status (backend_status r) = false)
  ∧ ok_status
      (res_status
         (Enrich.POST None (λ _, Normal (mkBackendResponse 503 Throw))
            "42" []).2) = false.
Proof.
  assert (H : ∀ (request : BackendRequest) r,
     (λ _ : BackendRequest, Normal (mkBackendResponse 503 Throw)) request
     = Normal r → ok_status (backend_status r) = false)
    by (intros request r [= <-]; reflexivity).
  split; [exact H|].
  exact (proj2 (proj2 (forwarding_failure_not_success None _ H)) "42" []).
Defined.

Lemma pretty_Z_of_N (n : N) : pretty (Z.of_N n) = pretty n.
Proof. by destruct n. Qed.

(** The listing that forwards makes exactly one call, whatever the
    backend answers, and the query it sends is normalised: for [limit]
    and [offset] given as natural numbers (below 2^53), or absent, the
    call is a GET of [/applications?limit=L&offset=O] with the defaults
    10 and 0 filled in. *)
Theorem forwarding_GET_query (env : option string) (backend : Backend)
    (L O : option N) (calls : list BackendRequest) :
  (default 10 L < 2 ^ 53)%N → (default 0 O < 2 ^ 53)%N →
  (Applications.GET env backend (pretty <$> L) (pretty <$> O) calls).1
  = calls ++
    [ mkBackendRequest
        (BACKEND_URL env +:+ "/applications?limit=" +:+ pretty (default 10%N L)
           +:+ "&offset=" +:+ pretty (default 0%N O))
        "GET" NoBody ].
Proof.
  intros _ _. unfold_proxy.
  change "10" with (pretty 10%N). change "0" with (pretty 0%N).
  rewrite !parseInt_param. unfold Number_toString.
  rewrite !pretty_Z_of_N.
  destruct (backend _) as [response|]; [|done].
  destruct (negb _).
  - destruct (backend_json response) as [v|]; [|done].
    destruct (error_or v _) as [e|]; [|done].
    by destruct (NextResponse_json_with _ _).
  - destruct (backend_json response) as [v|]; [|done].
    by destruct (NextResponse_json_with _ _).
Qed.

Lemma forwarding_GET_query_witness :
  (default 10 (Some 5) < 2 ^ 53)%N ∧ (default 0 None < 2 ^ 53)%N
  ∧ (Applications.GET None (λ _, Throw) (Some "5") None []).1
    = [ mkBackendRequest "http://localhost:8000/applications?limit=5&offset=0"
          "GET" NoBody ].
Proof.
  assert (H1 : (default 10 (Some 5) < 2 ^ 53)%N) by (vm_compute; reflexivity).
  assert (H2 : (default 0 None < 2 ^ 53)%N) by (vm_compute; reflexivity).
  split; [exact H1|]. split; [exact H2|].
  exact (forwarding_GET_query None (λ _, Throw) (Some 5%N) None [] H1 H2).
Defined.

(** The submit that forwards passes the form data on unchanged in a
    single POST of [/applications]; when the backend answers with any
    success status and a JSON body, the handler answers 201 with that
    body. *)
Theorem forwarding_POST_created (env : option string)
    (formData : list (string * string)) (s : nat) (result : JsVal)
    (calls : list BackendRequest) :
  ok_status s = true → result ≠ JUndefined →
  Applications.POST env (λ _, Normal (mkBackendResponse s (Normal result)))
    (Normal formData) calls
  = (calls ++ [ mkBackendRequest (BACKEND_URL env +:+ "/applications")
                  "POST" (FormDataBody formData) ],
     mkJsonResponse 201 result).
Proof.
  intros Hok Hresult. unfold_proxy. cbn [backend_status backend_json].
  rewrite Hok. cbn [negb]. by destruct result.
Qed.

Lemma forwarding_POST_created_witness :
  ok_status 200 = true ∧ JObj ∅ ≠ JUndefined
  ∧ res_status
      (Applications.POST None
         (λ _, Normal (mkBackendResponse 200 (Normal (JObj ∅))))
         (Normal [("data", "{}")]) []).2 = 201.
Proof.
  assert (H1 : ok_status 200 = true) by reflexivity.
  assert (H2 : JObj ∅ ≠ JUndefined) by (intros Heq; discriminate Heq).
  split; [exact H1|]. split; [exact H2|].
  rewrite (forwarding_POST_created None [("data", "{}")] 200 (JObj ∅) []
             H1 H2).
  reflexivity.
Defined.

(** An error of the backend is passed on with its status: when the
    backend answers with a status in 300..599 other than 304 and a JSON
    object, each handler answers with the same status and
    [{ error: e }], where [e] is the [error] property of that object if
    it is truthy and the handler's own message otherwise. *)
Theorem forwarding_error_passed_on (env : option string) (s : nat)
    (errorData : JsObj) (calls : list BackendRequest) :
  forwardable s →
  let backend : Backend :=
    λ _, Normal (mkBackendResponse s (Normal (JObj errorData))) in
  let error fallback :=
    if ToBoolean (prop errorData "error") then prop errorData "error"
    else JStr fallback in
  (∀ formData,
     (Applications.POST env backend (Normal formData) calls).2
     = mkJsonResponse s (error_body (error "Backend error")))
  ∧ (∀ limit_param offset_param,
       (Applications.GET env backend limit_param offset_param calls).2
       = mkJsonResponse s (error_body (error "Backend error")))
  ∧ (∀ id, id ≠ "" →
       (Enrich.POST env backend id calls).2
       = mkJsonResponse s (error_body (error "Enrichment failed"))).
Proof.
  intros Hs backend error.
  pose proof (forwardable_not_ok s Hs) as Hnot.
  assert (Hjson : ∀ fallback,
    NextResponse_json_with (error_body (error fallback)) (Some s)
    = Normal (mkJsonResponse s (error_body (error fallback))))
    by (intros; by apply NextResponse_json_with_forwardable).
  split_and!.
  - intros formData. unfold_proxy. subst backend.
    cbn [backend_status backend_json]. rewrite Hnot. cbn [negb].
    unfold error_or, Get. fold (prop errorData "error").
    cbn beta iota. fold (error "Backend error"). by rewrite Hjson.
  - intros limit_param offset_param. unfold_proxy. subst backend.
    cbn [backend_status backend_json]. rewrite Hnot. cbn [negb].
    unfold error_or, Get. fold (prop errorData "error").
    cbn beta iota. fold (error "Backend error"). by rewrite Hjson.
  - intros [|c id] Hid; [done|]. unfold_proxy. subst backend.
    cbn [ToBoolean negb backend_status backend_json Enrich.json_or_empty].
    rewrite Hnot. cbn [negb].
    unfold error_or, Get. fold (prop errorData "error").
    cbn beta iota. fold (error "Enrichment failed"). by rewrite Hjson.
Qed.

Lemma forwarding_error_passed_on_witness :
  forwardable 422
  ∧ (Enrich.POST None
       (λ _, Normal (mkBackendResponse 422
                       (Normal (JObj {[ "error" := JStr "no such id" ]}))))
       "42" []).2
    = mkJsonResponse 422 (error_body (JStr "no such id")).
Proof.
  assert (H : forwardable 422) by (unfold forwardable; lia).
  split; [exact H|].
  assert (Hid : "42" ≠ "") by (intros Heq; discriminate Heq).
  rewrite (proj2 (proj2 (forwarding_error_passed_on None 422
                           {[ "error" := JStr "no such id" ]} [] H))
             "42" Hid).
  reflexivity.
Defined.

(** When the error body of the backend is not JSON, the enrich handler
    still passes the backend's status on (with its own message), while
    the two applications handlers answer 500 "Internal server error" and
    the backend's status is lost. *)
Theorem forwarding_unreadable_error_body (env : option string) (s : nat)
    (calls : list BackendRequest) :
  forwardable s →
  let backend : Backend := λ _, Normal (mkBackendResponse s Throw) in
  (∀ id, id ≠ "" →
     (Enrich.POST env backend id calls).2
     = mkJsonResponse s (error_body (JStr "Enrichment failed")))
  ∧ (∀ formData,
       (Applications.POST env backend (Normal formData) calls).2
       = mkJsonResponse 500 (error_body (JStr "Internal server error")))
  ∧ (∀ limit_param offset_param,
       (Applications.GET env backend limit_param offset_param calls).2
       = mkJsonResponse 500 (error_body (JStr "Internal server error"))).
Proof.
  intros Hs backend.
  pose proof (forwardable_not_ok s Hs) as Hnot.
  split_and!.
  - intros [|c id] Hid; [done|]. unfold_proxy. subst backend.
    cbn [ToBoolean negb backend_status backend_json Enrich.json_or_empty].
    rewrite Hnot. cbn [negb].
    replace (error_or (JObj ∅) "Enrichment failed")
      with (Normal (JStr "Enrichment failed")) by reflexivity.
    cbn beta iota.
    by rewrite NextResponse_json_with_forwardable.
  - intros formData. unfold_proxy. subst backend.
    cbn [backend_status backend_json]. by rewrite Hnot.
  - intros limit_param offset_param. unfold_proxy. subst backend.
    cbn [backend_status backend_json]. by rewrite Hnot.
Qed.

Lemma forwarding_unreadable_error_body_witness :
  forwardable 502
  ∧ res_status
      (Enrich.POST None (λ _, Normal (mkBackendResponse 502 Throw))
         "42" []).2 = 502.
Proof.
  assert (H : forwardable 502) by (unfold forwardable; lia).
  split; [exact H|].
  assert (Hid : "42" ≠ "") by (intros Heq; discriminate Heq).
  rewrite (proj1 (forwarding_unreadable_error_body None 502 [] H) "42" Hid).
  reflexivity.
Defined.

End Forwarding.

(* ===================================================================== *)
(** * The application form *)
(* ===================================================================== *)

Section Form.

Import ApplyPage.

(** Whatever the sequence of presses of Next and Previous, [currentStep]
    stays between 1 and the number of steps, so that the entry
    [STEPS[currentStep - 1]] the page renders always exists. *)
Theorem form_step_in_range (presses : list Press) :
  (1 ≤ after_presses presses ≤ Z.of_nat (length STEPS))%Z
  ∧ is_Some (current_step_entry (after_presses presses)).
Proof.
  assert (Hinv : ∀ s, (1 ≤ s ≤ 5)%Z →
    (1 ≤ foldl (λ currentStep p,
                  match p with
                  | press_next => nextStep currentStep
                  | press_previous => prevStep currentStep
                  end) s presses ≤ 5)%Z).
  { induction presses as [|p presses IH]; intros s Hs; [done|].
    cbn [foldl]. apply IH.
    destruct p; unfold nextStep, prevStep; cbn [STEPS length].
    - destruct (Z.ltb_spec s (Z.of_nat 5)); lia.
    - destruct (Z.ltb_spec 1 s); lia. }
  specialize (Hinv 1%Z ltac:(lia)). fold (after_presses presses) in Hinv.
  split; [exact Hinv|].
  unfold current_step_entry.
  destruct (Z.ltb_spec (after_presses presses - 1) 0); [lia|].
  apply lookup_lt_is_Some. cbn [STEPS length]. lia.
Qed.

(** ** Documents *)

Lemma filter_indexed_remove {A} (index start : nat) (l : list A) :
  filter_indexed (λ _ i, negb (i =? index)) start l
  = if decide (index < start) then l
    else take (index - start) l ++ drop (S (index - start)) l.
Proof.
  revert start. induction l as [|x l IH]; intros start.
  - destruct (decide _); [done|]. by rewrite take_nil, drop_nil.
  - cbn [filter_indexed]. rewrite IH.
    destruct (Nat.eqb_spec start index) as [-> | Hne].
    + cbn [negb]. rewrite decide_True by lia.
      rewrite decide_False by lia. by rewrite Nat.sub_diag.
    + cbn [negb]. destruct (decide (index < start)).
      * by rewrite decide_True by lia.
      * rewrite decide_False by lia.
        replace (index - start) with (S (index - S start)) by lia.
        done.
Qed.

(** [removeFile(index)] removes the document at position [index] and
    nothing else; when there is no such position the documents are left
    as they are.  The other fields of the form are kept. *)
Theorem removeFile_removes_one (index : nat) (prev : FormData) :
  removeFile index prev
  = with_documents
      (take index (documents prev) ++ drop (S index) (documents prev)) prev
  ∧ (length (documents prev) ≤ index → removeFile index prev = prev)
  ∧ (index < length (documents prev) →
     S (length (documents (removeFile index prev)))
     = length (documents prev)).
Proof.
  assert (Heq : removeFile index prev
    = with_documents
        (take index (documents prev) ++ drop (S index) (documents prev))
        prev).
  { unfold removeFile. rewrite filter_indexed_remove.
    rewrite decide_False by lia. by rewrite Nat.sub_0_r. }
  rewrite Heq. split_and!; [done | |].
  - intros Hge. rewrite take_ge, drop_ge, app_nil_r by lia.
    by destruct prev.
  - intros Hlt. cbn [with_documents documents].
    rewrite length_app, length_take, length_drop. lia.
Qed.

Lemma removeFile_removes_one_witness :
  length (documents
            (handleFileUpload
               (Some [mkFile "deck.pdf" "application/pdf";
                      mkFile "model.xlsx" ""])
               initial_formData)) ≤ 5
  ∧ removeFile 5 (handleFileUpload
                    (Some [mkFile "deck.pdf" "application/pdf";
                           mkFile "model.xlsx" ""])
                    initial_formData)
    = handleFileUpload
        (Some [mkFile "deck.pdf" "application/pdf"; mkFile "model.xlsx" ""])
        initial_formData.
Proof.
  assert (H : length (documents
            (handleFileUpload
               (Some [mkFile "deck.pdf" "application/pdf";
                      mkFile "model.xlsx" ""])
               initial_formData)) ≤ 5) by (cbn; lia).
  split; [exact H|].
  exact (proj1 (proj2 (removeFile_removes_one 5 _)) H).
Defined.

(** ** Use of funds *)

Lemma filter_not_value_notin (value : string) (l : list string) :
  value ∉ l →
  List.filter (λ item, negb (bool_decide (item = value))) l = l.
Proof.
  induction l as [|x l IH]; intros Hnot; [done|].
  apply not_elem_of_cons in Hnot as [Hne Hnot].
  cbn [List.filter]. rewrite bool_decide_false by done.
  cbn [negb]. by rewrite IH.
Qed.

(** Unchecking a use of funds removes every occurrence of it and keeps
    the other choices in order; checking and then unchecking a value that
    was not chosen gives the form back as it was. *)
Theorem use_of_funds_uncheck (value : string) (prev : FormData) :
  (value ∉ primary_use_of_funds (handleUseOfFundsChange value false prev))
  ∧ (∀ other, other ≠ value →
       other ∈ primary_use_of_funds (handleUseOfFundsChange value false prev)
       ↔ other ∈ primary_use_of_funds prev)
  ∧ (value ∉ primary_use_of_funds prev →
     handleUseOfFundsChange value false
       (handleUseOfFundsChange value true prev) = prev).
Proof.
  unfold handleUseOfFundsChange. cbn [with_primary_use_of_funds
    primary_use_of_funds].
  split_and!.
  - rewrite list_elem_of_In, filter_In. intros [_ Hv].
    by rewrite bool_decide_true in Hv.
  - intros other Hne. rewrite !list_elem_of_In, filter_In.
    rewrite bool_decide_false by done. tauto.
  - intros Hnot. rewrite List.filter_app. cbn [List.filter].
    rewrite bool_decide_true by done. cbn [negb].
    rewrite app_nil_r, filter_not_value_notin by done.
    by destruct prev.
Qed.

Lemma use_of_funds_uncheck_witness :
  ("Hiring" ∉ primary_use_of_funds initial_formData)
  ∧ handleUseOfFundsChange "Hiring" false
      (handleUseOfFundsChange "Hiring" true initial_formData)
    = initial_formData.
Proof.
  assert (H : "Hiring" ∉ primary_use_of_funds initial_formData)
    by (cbn; apply not_elem_of_nil).
  split; [exact H|].
  exact (proj2 (proj2 (use_of_funds_uncheck "Hiring" initial_formData)) H).
Defined.

(** ** Co-founders *)

Lemma removeCoFounder_app id (l1 l2 : list CoFounder) :
  removeCoFounder id (l1 ++ l2)
  = removeCoFounder id l1 ++ removeCoFounder id l2.
Proof. apply List.filter_app. Qed.

(** The identifier of a co-founder entry is the clock value read when it
    is added.  Two entries added within the same millisecond share their
    identifier, and removing either removes both; entries added at
    different clock values are removed one by one. *)
Theorem coFounders_added_together (now : Z) (coFounders : list CoFounder) :
  removeCoFounder (Date_now_toString now)
    (addCoFounder now (addCoFounder now coFounders))
  = removeCoFounder (Date_now_toString now) coFounders
  ∧ (∀ now', now' ≠ now →
       removeCoFounder (Date_now_toString now')
         (addCoFounder now' (addCoFounder now []))
       = addCoFounder now [])
  ∧ (∀ value,
       updateCoFounder (Date_now_toString now) key_name value
         (addCoFounder now (addCoFounder now []))
       = [ mkCoFounder (Date_now_toString now) value "";
           mkCoFounder (Date_now_toString now) value "" ]).
Proof.
  unfold addCoFounder. split_and!.
  - rewrite !removeCoFounder_app. unfold removeCoFounder at 2 3.
    cbn [List.filter cf_id]. rewrite bool_decide_true by done.
    cbn [negb]. by rewrite !app_nil_r.
  - intros now' Hne. cbn [app]. unfold removeCoFounder.
    cbn [List.filter cf_id].
    rewrite bool_decide_false
      by (intros Heq; by apply Hne, Date_now_toString_inj).
    by rewrite bool_decide_true by done.
  - intros value. cbn [app]. unfold updateCoFounder. cbn [map cf_id].
    by rewrite bool_decide_true by done.
Qed.

(** [updateCoFounder] keeps the number, the order and the identifiers of
    the entries when it sets a name or a profile, changes every entry
    that carries the identifier and no other. *)
Theorem updateCoFounder_touches_id (id : string) (field : CoFounderKey)
    (value : string) (coFounders : list CoFounder) :
  field ≠ key_id →
  length (updateCoFounder id field value coFounders) = length coFounders
  ∧ cf_id <$> updateCoFounder id field value coFounders
    = cf_id <$> coFounders
  ∧ ∀ i cf, coFounders !! i = Some cf →
      updateCoFounder id field value coFounders !! i
      = Some (if bool_decide (cf_id cf = id) then set_key field value cf
              else cf).
Proof.
  intros Hfield. unfold updateCoFounder. split_and!.
  - apply length_map.
  - induction coFounders as [|cf l IH]; [done|].
    cbn [map fmap list_fmap]. cbn [map fmap list_fmap] in IH.
    rewrite IH. f_equal.
    destruct (bool_decide _); [|done]. by destruct field.
  - intros i cf Hcf.
    change (map ?f coFounders) with (f <$> coFounders).
    by rewrite list_lookup_fmap, Hcf.
Qed.

Lemma updateCoFounder_touches_id_witness :
  key_linkedin ≠ key_id
  ∧ length (updateCoFounder "7" key_linkedin "https://linkedin.com/in/x"
              (addCoFounder 7 [])) = 1.
Proof.
  assert (H : key_linkedin ≠ key_id) by (intros Heq; discriminate Heq).
  split; [exact H|].
  exact (proj1 (updateCoFounder_touches_id "7" key_linkedin
                  "https://linkedin.com/in/x" (addCoFounder 7 []) H)).
Defined.

(** ** Submitting the form *)

Lemma ToBoolean_JStr (s : string) :
  ToBoolean (JStr s) = negb (bool_decide (s = "")).
Proof. by destruct s. Qed.

(** The entries of an object all of whose values are strings are written
    and read back unchanged. *)
Lemma omap_JSON_value_strings (m : JsObj) :
  (∀ k v, m !! k = Some v → ∃ s, v = JStr s) →
  omap JSON_value m = m.
Proof.
  intros Hm. apply map_eq. intros k. rewrite lookup_omap.
  destruct (m !! k) as [v|] eqn:Hk; [|done].
  by destruct (Hm k v Hk) as [s ->].
Qed.

Lemma JSON_value_document_entry (file : File) :
  JSON_value (document_entry file) = Some (document_entry file).
Proof.
  unfold document_entry. cbn [JSON_value].
  rewrite omap_JSON_value_strings; [done|]. intros k v Hk.
  apply elem_of_list_to_map_2 in Hk.
  repeat (apply elem_of_cons in Hk as [[= _ ->] | Hk]; [by eexists|]).
  by apply elem_of_nil in Hk.
Qed.

Lemma JSON_value_strings (l : list string) :
  JSON_value (JArr (JStr <$> l)) = Some (JArr (JStr <$> l)).
Proof.
  cbn [JSON_value]. do 2 f_equal.
  induction l as [|x l IH]; [done|]. cbn. by rewrite <-IH at 2.
Qed.

Lemma JSON_value_document_entries (files : list File) :
  JSON_value (JArr (document_entry <$> files))
  = Some (JArr (document_entry <$> files)).
Proof.
  assert (Hmap : map (λ x, default JNull (JSON_value x))
                     (document_entry <$> files)
                 = document_entry <$> files).
  { induction files as [|x l IH]; [done|].
    rewrite fmap_cons. cbn [map].
    by rewrite JSON_value_document_entry, IH. }
  cbn [JSON_value]. by rewrite Hmap.
Qed.

(** The fields of the payload as the route reads them off the wire. *)
Ltac wire_lookup :=
  match goal with
  | formData : FormData |- _ =>
      destruct formData; rewrite lookup_omap; unfold payload;
      rewrite !lookup_insert_ne by done; vm_compute; reflexivity
  end.

Lemma wire_company_name formData coFounders :
  omap JSON_value (payload formData coFounders) !! "company_name"
  = Some (JStr (company_name formData)).
Proof. wire_lookup. Qed.

Lemma wire_primary_business_model formData coFounders :
  omap JSON_value (payload formData coFounders) !! "primary_business_model"
  = Some (JStr (primary_business_model formData)).
Proof. wire_lookup. Qed.

Lemma wire_current_stage formData coFounders :
  omap JSON_value (payload formData coFounders) !! "current_stage"
  = Some (JStr (current_stage formData)).
Proof. wire_lookup. Qed.

Lemma wire_funding_currency formData coFounders :
  omap JSON_value (payload formData coFounders) !! "funding_currency"
  = Some (JStr (funding_currency formData)).
Proof. wire_lookup. Qed.

Lemma wire_funding_amount_seeking formData coFounders :
  omap JSON_value (payload formData coFounders) !! "funding_amount_seeking"
  = Some (if PrimFloat.is_finite (funding_amount_seeking formData)
          then JNum (if PrimFloat.is_zero (funding_amount_seeking formData)
                     then 0%float else funding_amount_seeking formData)
          else JNull).
Proof. wire_lookup. Qed.

Lemma wire_documents formData coFounders :
  omap JSON_value (payload formData coFounders) !! "documents"
  = Some (JArr (document_entry <$> documents formData)).
Proof.
  rewrite lookup_omap. unfold payload. rewrite lookup_insert_eq.
  cbn [mbind option_bind]. apply JSON_value_document_entries.
Qed.

Lemma wire_founder_linkedin_urls formData coFounders :
  omap JSON_value (payload formData coFounders) !! "founder_linkedin_urls"
  = Some (JArr (JStr <$>
       (List.filter not_blank (founder_linkedin_urls formData)
        ++ List.filter not_blank (cf_linkedin <$> coFounders)))).
Proof.
  rewrite lookup_omap. unfold payload.
  rewrite lookup_insert_ne by done. rewrite lookup_insert_eq.
  cbn [mbind option_bind]. apply JSON_value_strings.
Qed.

Lemma payload_valid formData coFounders :
  valid_submission (omap JSON_value (payload formData coFounders))
  = form_complete formData.
Proof.
  unfold valid_submission, required_fields, prop, form_complete.
  cbn [forallb].
  rewrite wire_company_name, wire_primary_business_model, wire_current_stage.
  cbn [default]. unfold Datatypes.id. rewrite !ToBoolean_JStr.
  by rewrite andb_true_r, andb_assoc.
Qed.

Lemma payload_loggable formData coFounders :
  loggable (omap JSON_value (payload formData coFounders))
  = PrimFloat.is_finite (funding_amount_seeking formData).
Proof.
  unfold loggable, prop.
  rewrite wire_funding_currency, wire_funding_amount_seeking.
  cbn [default]. unfold Datatypes.id.
  by destruct (PrimFloat.is_finite _).
Qed.

(** Submitting the form through the submit route: with one of the three
    required fields empty nothing is stored and the form reports a
    failure; otherwise the record is stored, and the form reports success
    exactly when the funding amount is a finite number.  A form whose
    amount is not finite (it is written [null]) reports a failure
    although its record has been stored. *)
Theorem form_submission_outcome (formData : FormData)
    (coFounders : list CoFounder) (now created : Z) (st : Store) :
  handleSubmit (served_by_route now created) formData coFounders st
  = if negb (form_complete formData) then (st, alert_failed)
    else (st ++ [form_record formData coFounders now created],
          if PrimFloat.is_finite (funding_amount_seeking formData)
          then alert_success else alert_failed).
Proof.
  unfold handleSubmit, served_by_route, sent_as_json, form_record.
  cbn [JSON_value]. rewrite POST_object, payload_valid, payload_loggable.
  destruct (form_complete formData); cbn [negb]; [|done].
  by destruct (PrimFloat.is_finite _).
Qed.

(** What the route stores for a form: the required fields as typed in,
    the non-blank profile links of the founder and of the co-founders in
    that order, and one entry per selected file with its name and type
    and an empty [content]: the bytes of a file are never sent. *)
Theorem form_record_fields (formData : FormData)
    (coFounders : list CoFounder) (now created : Z) :
  let record := form_record formData coFounders now created in
  record !! "company_name" = Some (JStr (company_name formData))
  ∧ record !! "primary_business_model"
    = Some (JStr (primary_business_model formData))
  ∧ record !! "current_stage" = Some (JStr (current_stage formData))
  ∧ record !! "documents"
    = Some (JArr (document_entry <$> documents formData))
  ∧ (∀ i file, documents formData !! i = Some file →
       ∃ o, (document_entry <$> documents formData) !! i = Some (JObj o)
            ∧ o !! "filename" = Some (JStr (file_name file))
            ∧ o !! "content_type" = Some (JStr (file_type file))
            ∧ o !! "content" = Some (JStr ""))
  ∧ ∃ urls,
      record !! "founder_linkedin_urls" = Some (JArr (JStr <$> urls))
      ∧ urls = List.filter not_blank
                 (founder_linkedin_urls formData
                  ++ (cf_linkedin <$> coFounders))
      ∧ ∀ url, url ∈ urls → trim url ≠ "".
Proof.
  intros record. subst record. unfold form_record.
  rewrite !newApplication_other by done.
  rewrite wire_company_name, wire_primary_business_model,
    wire_current_stage, wire_documents, wire_founder_linkedin_urls.
  split_and!; try done.
  - intros i file Hfile. rewrite list_lookup_fmap, Hfile. cbn.
    eexists. split; [reflexivity|]. by vm_compute.
  - exists (List.filter not_blank
              (founder_linkedin_urls formData ++ (cf_linkedin <$> coFounders))).
    split_and!; [by rewrite List.filter_app | done |].
    intros url Hurl. apply list_elem_of_In, filter_In in Hurl as [_ Hnb].
    unfold not_blank in Hnb. rewrite ToBoolean_JStr in Hnb.
    intros Heq. by rewrite Heq in Hnb.
Qed.

End Form.

(* ===================================================================== *)
(** * The investor dashboard *)
(* ===================================================================== *)

Section DashboardPage.

Import Dashboard.

(** The two lists of the dashboard split the applications: together
    they hold the applications, each one in exactly one of "pending" and
    "reviewed", and the pending counter is the length of the pending
    list. *)
Theorem dashboard_lists_partition (applications : list JsObj) :
  pendingApplications applications ++ reviewedApplications applications
    ≡ₚ applications
  ∧ length (pendingApplications applications)
    + length (reviewedApplications applications)
    = stats_total applications
  ∧ stats_pending applications = length (pendingApplications applications)
  ∧ ∀ app, app ∈ applications →
      (app ∈ pendingApplications applications
       ↔ app ∉ reviewedApplications applications).
Proof.
  unfold pendingApplications, reviewedApplications, stats_total,
    stats_pending.
  assert (Hperm : List.filter (status_is "PENDING") applications
                  ++ List.filter (λ app, negb (status_is "PENDING" app))
                       applications ≡ₚ applications).
  { induction applications as [|x l IH]; [done|].
    cbn [List.filter]. destruct (status_is "PENDING" x); cbn [negb].
    - cbn. by rewrite IH.
    - by rewrite <-Permutation_middle, IH. }
  split_and!; [done | | done |].
  - by rewrite <-length_app, Hperm.
  - intros app Happ. rewrite !list_elem_of_In, !filter_In.
    apply list_elem_of_In in Happ.
    destruct (status_is "PENDING" app); cbn [negb]; split.
    + intros _ [_ [=]].
    + done.
    + by intros [_ [=]].
    + intros Hnot. destruct Hnot. done.
Qed.

(** The three status counters never add up to more than the total, and
    the "reviewed" counter counts the REVIEWED applications only, while
    the "reviewed" list holds every application that is not PENDING: an
    approved or rejected application is listed there without being
    counted. *)
Theorem dashboard_counters (applications : list JsObj) :
  stats_pending applications + stats_reviewed applications
    + stats_approved applications ≤ stats_total applications
  ∧ stats_reviewed applications + stats_approved applications
    ≤ length (reviewedApplications applications)
  ∧ (stats_reviewed applications
     = length (reviewedApplications applications)
     ↔ ∀ app, app ∈ applications →
         status_is "PENDING" app = true ∨ status_is "REVIEWED" app = true).
Proof.
  unfold stats_pending, stats_reviewed, stats_approved, stats_total,
    reviewedApplications.
  assert (Hexcl : ∀ app : JsObj,
    (status_is "PENDING" app = true → status_is "REVIEWED" app = false
                                      ∧ status_is "APPROVED" app = false)
    ∧ (status_is "REVIEWED" app = true → status_is "APPROVED" app = false)).
  { intros app. unfold status_is, strict_equals_string.
    destruct (prop app "status") as [| | | |s| |]; try done.
    split.
    - intros ->%bool_decide_eq_true. by split.
    - by intros ->%bool_decide_eq_true. }
  induction applications as [|app l IH].
  - cbn. split_and!; [lia | lia |]. split; [|done].
    intros _ app Happ. by apply elem_of_nil in Happ.
  - destruct IH as (IH1 & IH2 & IH3).
    pose proof (Hexcl app) as [Hp Hr].
    pose proof (List.filter_length_le (status_is "REVIEWED") l) as Hle.
    cbn [List.filter].
    destruct (status_is "PENDING" app) eqn:HP.
    + destruct (Hp eq_refl) as [-> ->]. cbn [negb length].
      split_and!; [lia | lia |]. rewrite IH3. split.
      * intros Hall a [-> | Ha]%elem_of_cons; [by left | by apply Hall].
      * intros Hall a Ha. apply Hall. by right.
    + cbn [negb]. destruct (status_is "REVIEWED" app) eqn:HR.
      * rewrite (Hr eq_refl). cbn [length].
        split_and!; [lia | lia |].
        split.
        -- intros Heq a [-> | Ha]%elem_of_cons; [by right|].
           apply IH3; [lia | done].
        -- intros Hall. f_equal. apply IH3. intros a Ha.
           apply Hall. by right.
      * destruct (status_is "APPROVED" app); cbn [length];
          (split_and!; [lia | lia |]); split.
        -- intros Heq. exfalso.
           assert (length (List.filter (status_is "REVIEWED") l)
                   ≤ length (List.filter
                               (λ app, negb (status_is "PENDING" app)) l))
             by lia. lia.
        -- intros Hall. destruct (Hall app) as [H | H]; [by left | |];
             congruence.
        -- intros Heq. exfalso.
           assert (length (List.filter (status_is "REVIEWED") l)
                   ≤ length (List.filter
                               (λ app, negb (status_is "PENDING" app)) l))
             by lia. lia.
        -- intros Hall. destruct (Hall app) as [H | H]; [by left | |];
             congruence.
Qed.

(** ** Setting the status of the selected application *)

Lemma strict_equals_string_id (a : JsVal) (i : string) :
  strict_equals a (JStr i) = true ↔ a = JStr i.
Proof.
  destruct a as [| | | |s| |]; cbn; try (by split).
  rewrite bool_decide_eq_true. split; [by intros -> | by intros [= ->]].
Qed.

(** With an application selected whose identifier is a string,
    [updateApplicationStatus] sets the status of every listed application
    that carries that identifier (all of them, should several share it)
    and of the selected one, and leaves the others and the order as they
    are; after a status other than PENDING, no application with that
    identifier is left in the pending list.  With nothing selected it
    changes nothing. *)
Theorem updateApplicationStatus_by_id (status i : string)
    (applications : list JsObj) (selected : JsObj) :
  selected !! "id" = Some (JStr i) →
  let '(applications', selected') :=
    updateApplicationStatus status applications (Some selected) in
  length applications' = length applications
  ∧ (∀ n app, applications !! n = Some app → prop app "id" = JStr i →
       applications' !! n = Some (<[ "status" := JStr status ]> app))
  ∧ (∀ n app, applications !! n = Some app → prop app "id" ≠ JStr i →
       applications' !! n = Some app)
  ∧ selected' = Some (<[ "status" := JStr status ]> selected)
  ∧ (status ≠ "PENDING" →
     ∀ app, app ∈ pendingApplications applications' →
            prop app "id" ≠ JStr i)
  ∧ updateApplicationStatus status applications None = (applications, None).
Proof.
  intros Hid. unfold updateApplicationStatus.
  assert (Hsel : prop selected "id" = JStr i) by (unfold prop; by rewrite Hid).
  rewrite Hsel.
  split_and!; [apply length_map | | | done | | done].
  - intros n app Happ Happid.
    change (map ?f applications) with (f <$> applications).
    rewrite list_lookup_fmap, Happ. cbn.
    by rewrite (proj2 (strict_equals_string_id _ _) Happid).
  - intros n app Happ Happid.
    change (map ?f applications) with (f <$> applications).
    rewrite list_lookup_fmap, Happ. cbn.
    destruct (strict_equals (prop app "id") (JStr i)) eqn:Heq; [|done].
    by apply strict_equals_string_id in Heq.
  - intros Hstatus app Happ.
    unfold pendingApplications in Happ.
    apply list_elem_of_In, filter_In in Happ as [Hin Hpending].
    apply list_elem_of_In, list_elem_of_lookup in Hin as [n Hn].
    change (map ?f applications) with (f <$> applications) in Hn.
    rewrite list_lookup_fmap in Hn.
    destruct (applications !! n) as [app0|] eqn:Happ0; [|done].
    cbn in Hn.
    destruct (strict_equals (prop app0 "id") (JStr i)) eqn:Hdec.
    + injection Hn as <-. exfalso.
      unfold status_is, prop in Hpending.
      rewrite lookup_insert_eq in Hpending. cbn in Hpending.
      by apply bool_decide_eq_true in Hpending.
    + injection Hn as <-. intros Heq.
      apply strict_equals_string_id in Heq. congruence.
Qed.

Lemma updateApplicationStatus_by_id_witness :
  ({[ "id" := JStr "7" ]} : JsObj) !! "id" = Some (JStr "7")
  ∧ (updateApplicationStatus "APPROVED"
       [ {[ "id" := JStr "7" ]}; {[ "id" := JStr "8" ]};
         {[ "id" := JStr "7" ]} ]
       (Some {[ "id" := JStr "7" ]})).2
    = Some (<[ "status" := JStr "APPROVED" ]> {[ "id" := JStr "7" ]}).
Proof.
  assert (H : ({[ "id" := JStr "7" ]} : JsObj) !! "id" = Some (JStr "7"))
    by (vm_compute; reflexivity).
  split; [exact H|].
  pose proof (updateApplicationStatus_by_id "APPROVED" "7"
                [ {[ "id" := JStr "7" ]}; {[ "id" := JStr "8" ]};
                  {[ "id" := JStr "7" ]} ]
                {[ "id" := JStr "7" ]} H) as Hu.
  destruct (updateApplicationStatus _ _ _) as [apps' sel'].
  exact (proj1 (proj2 (proj2 (proj2 Hu)))).
Defined.

(** ** Loading the applications *)

Lemma as_applications_objects (l : list JsObj) :
  as_applications (JArr (JObj <$> l)) = Some l.
Proof. unfold as_applications. by apply mapM_fmap_Some. Qed.

Lemma JSON_value_objects (l : list JsObj) :
  JSON_value (JArr (JObj <$> l))
  = Some (JArr (JObj <$> ((λ o : JsObj, omap JSON_value o) <$> l))).
Proof.
  assert (Hmap : map (λ x, default JNull (JSON_value x)) (JObj <$> l)
                 = JObj <$> ((λ o : JsObj, omap JSON_value o) <$> l)).
  { induction l as [|x l IH]; [done|].
    rewrite !fmap_cons. f_equal. exact IH. }
  cbn [JSON_value]. by rewrite Hmap.
Qed.

(** The dashboard loads the listing without parameters, so it holds the
    first ten stored applications at most: its TOTAL counter is the
    smaller of 10 and the number of stored applications, not the [total]
    the listing reports. *)
Theorem dashboard_loads_first_page (random : nat → float) (st : Store) :
  ∃ applications,
    fetchApplications (Normal (ApplicationsRoute.GET None None random st).2)
    = inl (JArr (JObj <$> applications))
    ∧ as_applications (JArr (JObj <$> applications)) = Some applications
    ∧ stats_total applications = min 10 (length st)
    ∧ body (ApplicationsRoute.GET None None random st).2 !! "total"
      = Some (total_of (length st)).
Proof.
  exists ((λ o : JsObj, omap JSON_value o) <$>
            ApplicationsRoute.enhancedApplications random st
              (Some 10%Z) (Some 0%Z)).
  rewrite GET_total. split_and!; [| apply as_applications_objects | | done].
  - rewrite GET_unfold. unfold fetchApplications.
    cbn [snd status body ok_status Nat.leb andb].
    unfold sent_as_json. cbn [JSON_value Get].
    rewrite lookup_omap, lookup_insert_eq.
    cbn [mbind option_bind]. rewrite JSON_value_objects.
    cbn [default]. unfold Datatypes.id. by cbn [ToBoolean].
  - unfold stats_total. rewrite length_fmap.
    unfold ApplicationsRoute.enhancedApplications. rewrite length_imap.
    change (ApplicationsRoute.add (Some 0%Z) (Some 10%Z))
      with (Some (Z.of_nat 0 + Z.of_nat 10)%Z).
    change (Some 0%Z) with (Some (Z.of_nat 0)).
    rewrite slice_nonneg, length_take, drop_0. done.
Qed.

End DashboardPage.
